(** * Basilisp nREPL bridge: the bencode codec, the session transport and
      the result interpreter of [basilisp_mcp_bridge.py]

    The development embeds the wire-protocol client of the bridge:
    [bencode_encode], [bencode_encode_list], [parse_bencode_response],
    [make_session_request], [make_eval_request], [send_to_nrepl],
    [pretty_print_result] and [check_connection].

    Conventions.
    - A Python [str] is represented by its UTF-8 encoding, a Rocq [string]
      of 8-bit characters; [.encode()] is then the identity, [.decode()]
      checks that the bytes are well-formed UTF-8, and [len] counts code
      points (the bytes that are not continuation bytes).  A [str] holding
      a lone surrogate has no UTF-8 encoding and is outside the model.
    - Python integers are unbounded: [Z] for values, [N] for lengths.
    - The socket is a scripted [world]: every call of the program on the
      socket is answered by the world and recorded in a trace. *)

From Stdlib Require Import String Ascii List ZArith NArith Arith Bool Lia.
From Stdlib Require Import DecimalString DecimalN DecimalZ.
From Equations Require Import Equations.
Import ListNotations.

Local Open Scope string_scope.

(* ===================================================================== *)
(** * Part I.  The embedding                                              *)
(* ===================================================================== *)

(** ** The Python runtime: strings, bytes, numbers *)

Module Py.

(** The byte value of a character. *)
Definition code (c : ascii) : N := N_of_ascii c.

Definition between (lo hi : N) (c : ascii) : bool :=
  (lo <=? code c)%N && (code c <=? hi)%N.

(** A UTF-8 continuation byte, [10xxxxxx]. *)
Definition is_continuation (c : ascii) : bool := between 128 191 c.

Definition is_ascii_char (c : ascii) : bool := (code c <? 128)%N.

(** [len(s)] of a [str]: the number of code points. *)
Fixpoint len (s : string) : N :=
  match s with
  | EmptyString => 0%N
  | String c r => if is_continuation c then len r else N.succ (len r)
  end.

(** [len(b)] of a [bytes] object. *)
Fixpoint blen (s : string) : N :=
  match s with
  | EmptyString => 0%N
  | String _ r => N.succ (blen r)
  end.

(** [str(n)] of a non-negative integer. *)
Definition str_N (n : N) : string := NilEmpty.string_of_uint (N.to_uint n).

(** [str(z)] of an integer. *)
Definition str_Z (z : Z) : string := NilEmpty.string_of_int (Z.to_int z).

(** The ASCII digits, what [\d] matches in a bytes pattern. *)
Definition is_digit (c : ascii) : bool := between 48 57 c.

(** The value of a run of ASCII digits; the conversion [int(b)] itself,
    with its limit on the number of digits, is [int_of_bytes] below. *)
Definition decimal_value (ds : string) : N :=
  match NilEmpty.uint_of_string ds with
  | Some u => N.of_uint u
  | None => 0%N
  end.

(** [b[:n]]: slicing stops at the end of the data. *)
Fixpoint take (n : N) (s : string) : string :=
  match s with
  | EmptyString => EmptyString
  | String c r => if (n =? 0)%N then EmptyString else String c (take (N.pred n) r)
  end.

(** The rest of [s] after the prefix [p], when [s] starts with [p]. *)
Fixpoint strip_prefix (p s : string) : option string :=
  match p with
  | EmptyString => Some s
  | String a p' =>
      match s with
      | EmptyString => None
      | String b s' => if Ascii.eqb a b then strip_prefix p' s' else None
      end
  end.

(** [s.startswith(p)]. *)
Definition startswith (s p : string) : bool :=
  match strip_prefix p s with
  | Some _ => true
  | None => false
  end.

(** [x in s] for strings: [x] occurs in [s]. *)
Fixpoint contains (x s : string) : bool :=
  match strip_prefix x s with
  | Some _ => true
  | None =>
      match s with
      | EmptyString => false
      | String _ r => contains x r
      end
  end.

(** The line feed. *)
Definition LF : ascii := "010"%char.
Definition newline : string := String LF EmptyString.

(** The text has a line feed in it. *)
Fixpoint has_LF (s : string) : bool :=
  match s with
  | EmptyString => false
  | String c r => Ascii.eqb c LF || has_LF r
  end.

(** [s.split('\n')]. *)
Fixpoint split_lines (s : string) : list string :=
  match s with
  | EmptyString => [EmptyString]
  | String c r =>
      if Ascii.eqb c LF then EmptyString :: split_lines r
      else
        match split_lines r with
        | l :: ls => String c l :: ls
        | [] => [String c EmptyString]
        end
  end.

(** ["\n".join(ls)]. *)
Definition join_lines (ls : list string) : string := String.concat newline ls.

(** Well-formed UTF-8 (Unicode Standard, table 3-7), which is what the
    strict [utf-8] codec of [bytes.decode()] accepts. *)
Definition lead3 (b0 b1 : ascii) : bool :=
  ((code b0 =? 224)%N && between 160 191 b1)
  || (between 225 236 b0 && between 128 191 b1)
  || ((code b0 =? 237)%N && between 128 159 b1)
  || (between 238 239 b0 && between 128 191 b1).

Definition lead4 (b0 b1 : ascii) : bool :=
  ((code b0 =? 240)%N && between 144 191 b1)
  || (between 241 243 b0 && between 128 191 b1)
  || ((code b0 =? 244)%N && between 128 143 b1).

Fixpoint utf8_valid (s : string) : bool :=
  match s with
  | EmptyString => true
  | String b0 r0 =>
      if is_ascii_char b0 then utf8_valid r0
      else
        match r0 with
        | EmptyString => false
        | String b1 r1 =>
            if between 194 223 b0 then is_continuation b1 && utf8_valid r1
            else
              match r1 with
              | EmptyString => false
              | String b2 r2 =>
                  if lead3 b0 b1 then is_continuation b2 && utf8_valid r2
                  else
                    match r2 with
                    | EmptyString => false
                    | String b3 r3 =>
                        lead4 b0 b1 && is_continuation b2
                        && is_continuation b3 && utf8_valid r3
                    end
              end
        end
  end.

(** Text made of ASCII characters only. *)
Fixpoint is_ascii (s : string) : bool :=
  match s with
  | EmptyString => true
  | String c r => is_ascii_char c && is_ascii r
  end.

End Py.

(** ** Exceptions and outcomes *)

(** The exceptions the program can meet; all are instances of
    [Exception].  [OtherException] stands for any other one. *)
Inductive pyexn : Type :=
| SocketTimeout                          (* socket.timeout *)
| ConnectionRefusedError
| UnicodeDecodeError (object : string)   (* raised by bytes.decode() *)
| UnboundLocalError (name : string)      (* a local read before it is bound *)
| ValueError (object : string)           (* raised by int() on too many digits *)
| OtherException (text : string).

Inductive outcome (A : Type) : Type :=
| Return (a : A)
| Raise (e : pyexn).
Arguments Return {A} a.
Arguments Raise {A} e.

(** [b.decode()]. *)
Definition decode (b : string) : outcome string :=
  if Py.utf8_valid b then Return b else Raise (UnicodeDecodeError b).

(** The interpreter's limit on the number of digits of an integer
    conversion, [sys.int_max_str_digits], at its default value. *)
Definition int_max_str_digits : N := 4300.

(** [int(b)] of the group of a match, a non-empty run of ASCII digits:
    the conversion raises on a run that is longer than the limit. *)
Definition int_of_bytes (digits : string) : outcome N :=
  if (int_max_str_digits <? Py.blen digits)%N
  then Raise (ValueError digits)
  else Return (Py.decimal_value digits).

(** ** Values of a request mapping *)

#[warnings="-register-all"]
Inductive pyval : Type :=
| VStr (s : string)
| VInt (z : Z)
| VBool (b : bool)
| VList (items : list pyval)
| VFloat (mantissa exponent : Z)
| VNone
| VDict (entries : list (string * pyval)).

Inductive pytype : Type := TStr | TInt | TBool | TList | TFloat | TNoneType | TDict.

Definition type_of (v : pyval) : pytype :=
  match v with
  | VStr _ => TStr
  | VInt _ => TInt
  | VBool _ => TBool
  | VList _ => TList
  | VFloat _ _ => TFloat
  | VNone => TNoneType
  | VDict _ => TDict
  end.

(** [issubclass]: every class is its own subclass, and [bool] is a
    subclass of [int]. *)
Definition issubclass (c d : pytype) : bool :=
  match c, d with
  | TStr, TStr | TInt, TInt | TBool, TBool | TList, TList
  | TFloat, TFloat | TNoneType, TNoneType | TDict, TDict => true
  | TBool, TInt => true
  | _, _ => false
  end.

Definition isinstance (v : pyval) (t : pytype) : bool := issubclass (type_of v) t.

(** The text of an instance of [str]. *)
Definition str_text (v : pyval) : string :=
  match v with VStr s => s | _ => EmptyString end.

(** The items of an instance of [list]. *)
Definition list_items (v : pyval) : list pyval :=
  match v with VList l => l | _ => [] end.

(** [f"{v}"] of an instance of [int]: the decimal digits of an [int], and
    [True] or [False] for a [bool], which has no format of its own and
    falls back on [str(v)]. *)
Definition format_int (v : pyval) : string :=
  match v with
  | VInt z => Py.str_Z z
  | VBool true => "True"
  | VBool false => "False"
  | _ => EmptyString
  end.

(** The truth value of [v], as tested by [1 if v else 0]. *)
Definition truthy (v : pyval) : bool :=
  match v with
  | VStr s => negb (String.eqb s EmptyString)
  | VInt z => negb (Z.eqb z 0)
  | VBool b => b
  | VList l => match l with [] => false | _ => true end
  | VFloat m _ => negb (Z.eqb m 0)
  | VNone => false
  | VDict d => match d with [] => false | _ => true end
  end.

(** ** The bencode encoder *)

(** One item of [bencode_encode_list]: the body of its loop (lines 54-59). *)
Definition bencode_encode_item (item : pyval) : string :=
  if isinstance item TStr then
    Py.str_N (Py.len (str_text item)) ++ ":" ++ str_text item
  else if isinstance item TInt then
    "i" ++ format_int item ++ "e"
  else if isinstance item TBool then
    "i" ++ (if truthy item then "1" else "0") ++ "e"
  else EmptyString.

Fixpoint bencode_encode_list (data : list pyval) : string :=
  match data with
  | [] => EmptyString
  | item :: rest => bencode_encode_item item ++ bencode_encode_list rest
  end.

(** The marker of a key, [str(len(str(k))) + ":" + str(k)]. *)
Definition key_marker (k : string) : string :=
  Py.str_N (Py.len k) ++ ":" ++ k.

(** What the loop of [bencode_encode] appends after the key (lines 39-46). *)
Definition bencode_encode_value (v : pyval) : string :=
  if isinstance v TStr then
    Py.str_N (Py.len (str_text v)) ++ ":" ++ str_text v
  else if isinstance v TInt then
    "i" ++ format_int v ++ "e"
  else if isinstance v TBool then
    "i" ++ (if truthy v then "1" else "0") ++ "e"
  else if isinstance v TList then
    "l" ++ bencode_encode_list (list_items v) ++ "e"
  else EmptyString.

(** The entries of the mapping in iteration order. *)
Fixpoint bencode_encode_items (data : list (string * pyval)) : string :=
  match data with
  | [] => EmptyString
  | (k, v) :: rest =>
      key_marker k ++ bencode_encode_value v ++ bencode_encode_items rest
  end.

(** [bencode_encode(data)] (lines 34-48); the mapping is the list of its
    items in iteration order, and every key is a [str]. *)
Definition bencode_encode (data : list (string * pyval)) : string :=
  "d" ++ bencode_encode_items data ++ "e".

Definition make_session_request : string :=
  bencode_encode [("op", VStr "clone"); ("verbose", VInt 1); ("prompt", VInt 1)].

Definition make_eval_request (code session_id : string) : string :=
  bencode_encode [("op", VStr "eval"); ("code", VStr code); ("session", VStr session_id)].

(** ** The field scanner *)

(** The longest run of ASCII digits at the head of [s], and what follows. *)
Fixpoint span_digits (s : string) : string * string :=
  match s with
  | EmptyString => (EmptyString, EmptyString)
  | String c r =>
      if Py.is_digit c then
        let (ds, rest) := span_digits r in (String c ds, rest)
      else (EmptyString, s)
  end.

(** The pattern [<marker>(\d+):] matched at the head of [s]: the marker,
    a non-empty run of digits (the run is maximal, no shorter run is
    followed by a colon) and a colon.  The result is the group of the
    match and the data from the end of the match on. *)
Definition match_field_at (marker s : string) : option (string * string) :=
  match Py.strip_prefix marker s with
  | None => None
  | Some after =>
      match span_digits after with
      | (String d ds, String ":" payload) => Some (String d ds, payload)
      | _ => None
      end
  end.

(** [re.search(rb"<marker>(\d+):", data)]: the leftmost match. *)
Fixpoint search_field (marker data : string) : option (string * string) :=
  match match_field_at marker data with
  | Some m => Some m
  | None =>
      match data with
      | EmptyString => None
      | String _ r => search_field marker r
      end
  end.

(** One extraction block of [parse_bencode_response] (lines 67-72, 75-80,
    87-92 and 95-100):
    [length = int(m.group(1)); pos = m.end(); data[pos:pos+length].decode()]. *)
Definition extract_field (marker data : string) : outcome (option string) :=
  match search_field marker data with
  | None => Return None
  | Some (digits, after) =>
      match int_of_bytes digits with
      | Raise e => Raise e
      | Return length =>
          match decode (Py.take length after) with
          | Return text => Return (Some text)
          | Raise e => Raise e
          end
      end
  end.

(** [.*<lit>] matched at the head of [s]; the dot of a bytes pattern
    matches every byte but the line feed. *)
Fixpoint dot_star_then (lit s : string) : bool :=
  match Py.strip_prefix lit s with
  | Some _ => true
  | None =>
      match s with
      | EmptyString => false
      | String c r => if Ascii.eqb c Py.LF then false else dot_star_then lit r
      end
  end.

(** [re.search(rb"6:status.*4:done", data)] finds a match (line 83). *)
Fixpoint search_status_done (data : string) : bool :=
  match Py.strip_prefix "6:status" data with
  | Some after =>
      if dot_star_then "4:done" after then true
      else match data with
           | EmptyString => false
           | String _ r => search_status_done r
           end
  | None =>
      match data with
      | EmptyString => false
      | String _ r => search_status_done r
      end
  end.

(** The dictionary built by [parse_bencode_response]: it only ever has
    these five keys, and a key is in the dictionary when its component is
    [Some]. *)
Record fields : Type := {
  new_session : option string;          (* "new-session" *)
  value : option string;                (* "value" *)
  status : option (list string);        (* "status" *)
  err : option string;                  (* "err" *)
  root_ex : option string               (* "root-ex" *)
}.

Definition parse_bencode_response (data : string) : outcome fields :=
  match extract_field "11:new-session" data with
  | Raise e => Raise e
  | Return session =>
  match extract_field "5:value" data with
  | Raise e => Raise e
  | Return val =>
  let st := if search_status_done data then Some ["done"] else None in
  match extract_field "3:err" data with
  | Raise e => Raise e
  | Return er =>
  match extract_field "7:root-ex" data with
  | Raise e => Raise e
  | Return ex =>
      Return {| new_session := session; value := val; status := st;
                err := er; root_ex := ex |}
  end end end end.

(** ** The socket world and the transport monad *)

(** What the program does on the socket, in the order it does it. *)
Inductive event : Type :=
| EvSocket                                   (* socket.socket(AF_INET, SOCK_STREAM) *)
| EvSetTimeout (timeout : Z)                 (* sock.settimeout(timeout) *)
| EvConnect (host : string) (port : Z)       (* sock.connect((host, port)) *)
| EvSendAll (data : string)                  (* sock.sendall(data) *)
| EvRecv (bufsize : N)                       (* sock.recv(bufsize) *)
| EvClose.                                   (* sock.close() *)

(** The answers of the outside world.  A call either succeeds or raises;
    the n-th [sendall] and the n-th [recv] (counted from 0) have their own
    answers.  [exception_text] is [str(e)], which the interpreter and the
    socket library supply. *)
Record world : Type := {
  socket_raises : option pyexn;
  settimeout_raises : option pyexn;
  connect_raises : option pyexn;
  sendall_raises : nat -> string -> option pyexn;
  recv_answer : nat -> outcome string;
  close_raises : option pyexn;
  exception_text : pyexn -> string
}.

(** The state threaded through [send_to_nrepl]: the calls made so far and
    whether the local variable [sock] holds a socket ([None] otherwise). *)
Record state : Type := {
  trace : list event;
  sock : bool
}.

Definition initial_state : state := {| trace := []; sock := false |}.

Definition M (A : Type) : Type := state -> outcome A * state.

Definition ret {A} (a : A) : M A := fun s => (Return a, s).

Definition raise {A} (e : pyexn) : M A := fun s => (Raise e, s).

Definition bind {A B} (m : M A) (k : A -> M B) : M B :=
  fun s =>
    match m s with
    | (Return a, s') => k a s'
    | (Raise e, s') => (Raise e, s')
    end.

Declare Scope transport_scope.
Delimit Scope transport_scope with transport.
Notation "x <- m ;; k" := (bind m (fun x => k))
  (at level 61, m at next level, right associativity) : transport_scope.
Notation "m ;; k" := (bind m (fun _ => k))
  (at level 61, right associativity) : transport_scope.

(** A computation that cannot touch the socket. *)
Definition lift {A} (o : outcome A) : M A := fun s => (o, s).

Definition log (ev : event) (s : state) : state :=
  {| trace := trace s ++ [ev]; sock := sock s |}.

(** A call on the socket with no result. *)
Definition call (ev : event) (answer : option pyexn) : M unit :=
  fun s =>
    match answer with
    | None => (Return tt, log ev s)
    | Some e => (Raise e, log ev s)
    end.

Fixpoint count_sendall (tr : list event) : nat :=
  match tr with
  | [] => 0
  | EvSendAll _ :: r => S (count_sendall r)
  | _ :: r => count_sendall r
  end.

Fixpoint count_recv (tr : list event) : nat :=
  match tr with
  | [] => 0
  | EvRecv _ :: r => S (count_recv r)
  | _ :: r => count_recv r
  end.

(** [sock = socket.socket(...)]: the variable is bound when the call
    returns. *)
Definition socket_socket (w : world) : M unit :=
  fun s =>
    match socket_raises w with
    | None => (Return tt, {| trace := trace s ++ [EvSocket]; sock := true |})
    | Some e => (Raise e, log EvSocket s)
    end.

Definition sock_settimeout (w : world) (timeout : Z) : M unit :=
  call (EvSetTimeout timeout) (settimeout_raises w).

Definition sock_connect (w : world) (host : string) (port : Z) : M unit :=
  call (EvConnect host port) (connect_raises w).

Definition sock_sendall (w : world) (data : string) : M unit :=
  fun s => call (EvSendAll data) (sendall_raises w (count_sendall (trace s)) data) s.

Definition sock_recv (w : world) (bufsize : N) : M string :=
  fun s => (recv_answer w (count_recv (trace s)), log (EvRecv bufsize) s).

Definition sock_close (w : world) : M unit :=
  call EvClose (close_raises w).

(** [try: body / except ...: handler / finally: final]. *)
Definition try_except_finally {A} (body : M A) (handler : pyexn -> M A)
    (final : M unit) : M A :=
  fun s =>
    let (r, s1) := body s in
    let (r', s2) := match r with
                    | Return a => (Return a, s1)
                    | Raise e => handler e s1
                    end in
    let (f, s3) := final s2 in
    match f with
    | Return _ => (r', s3)
    | Raise e => (Raise e, s3)
    end.

(** [try: body / except: pass]. *)
Definition try_pass (body : M unit) : M unit :=
  fun s => let (_, s') := body s in (Return tt, s').

(** ** The session transport *)

(** ["status" in parsed and "done" in parsed["status"]]. *)
Definition status_done (parsed : fields) : bool :=
  match status parsed with
  | Some markers => existsb (String.eqb "done") markers
  | None => false
  end.

(** The read loop of [send_to_nrepl] (lines 156-166), entered with the
    current values of the locals [max_reads], [reads] and [result]; it
    returns the final [result].  Every turn adds one to [reads], which is
    why the loop ends. *)
Equations read_loop (w : world) (max_reads reads : nat) (result : string) (s : state)
  : outcome string * state by wf (max_reads - reads) lt :=
  read_loop w max_reads reads result s with lt_dec reads max_reads := {
    | right _ => (Return result, s)
    | left more =>
        match sock_recv w 4096 s with
        | (Raise e, s1) => (Raise e, s1)
        | (Return data, s1) =>
            if String.eqb data EmptyString then (Return result, s1)
            else
              match parse_bencode_response (result ++ data) with
              | Raise e => (Raise e, s1)
              | Return parsed =>
                  if status_done parsed then (Return (result ++ data), s1)
                  else read_loop w max_reads (S reads) (result ++ data) s1
              end
        end }.
Next Obligation. lia. Qed.

(** The resolution at the end of [send_to_nrepl] (lines 171-178). *)
Definition resolve (parsed_result : fields) : string :=
  match err parsed_result with
  | Some e => "Error: " ++ e
  | None =>
      match root_ex parsed_result with
      | Some x => "Exception: " ++ x
      | None =>
          match value parsed_result with
          | Some v => v
          | None => "No result"
          end
      end
  end.

Local Open Scope transport_scope.

(** The [try] block of [send_to_nrepl] (lines 133-178); the loop is entered
    with [max_reads = 100], [reads = 0] and [result = bytes()]. *)
Definition send_to_nrepl_body (w : world) (code host : string) (port timeout : Z)
  : M string :=
  socket_socket w ;;
  sock_settimeout w timeout ;;
  sock_connect w host port ;;
  (* Create a session *)
  sock_sendall w make_session_request ;;
  session_resp <- sock_recv w 4096 ;;
  session_data <- lift (parse_bencode_response session_resp) ;;
  match new_session session_data with
  | None => ret "Error: Could not create nREPL session"
  | Some session_id =>
      if String.eqb session_id EmptyString
      then ret "Error: Could not create nREPL session"
      else
        (* Evaluate code *)
        sock_sendall w (make_eval_request code session_id) ;;
        result <- read_loop w 100 0 EmptyString ;;
        (* Extract value or error from response *)
        parsed_result <- lift (parse_bencode_response result) ;;
        ret (resolve parsed_result)
  end.

(** The [except] clauses of [send_to_nrepl], in their order (lines 180-185). *)
Definition send_to_nrepl_except (w : world) (e : pyexn) : M string :=
  match e with
  | SocketTimeout => ret "Error: nREPL connection timed out"
  | ConnectionRefusedError =>
      ret "Error: nREPL connection refused. Is the nREPL server running?"
  | _ => ret ("Error: " ++ exception_text w e)
  end.

(** The [finally] clause of [send_to_nrepl] (lines 186-192). *)
Definition send_to_nrepl_finally (w : world) : M unit :=
  fun s => if sock s then try_pass (sock_close w) s else (Return tt, s).

(** [sock = None], the first statement of [send_to_nrepl]. *)
Definition unbind_sock (s : state) : state :=
  {| trace := trace s; sock := false |}.

Definition send_to_nrepl (w : world) (code host : string) (port timeout : Z)
  : M string :=
  fun s =>
    try_except_finally (send_to_nrepl_body w code host port timeout)
                       (send_to_nrepl_except w)
                       (send_to_nrepl_finally w)
                       (unbind_sock s).

(** ** The result interpreter *)

(** The substrings a line of a trace is kept for. *)
Definition relevant_parts : list string :=
  ["File "; "Error:"; "Exception:"; "message:"; "line "; "phase:"].

(** [any(x in line for x in [...])]. *)
Definition is_relevant (line : string) : bool :=
  existsb (fun x => Py.contains x line) relevant_parts.

(** [pretty_print_result(result, ctx)] (lines 194-222).  [highlight] is the syntax
    highlighter, which returns the coloured text or raises; the messages
    logged on [ctx] are not part of the result. *)
Definition pretty_print_result (highlight : string -> outcome string)
    (result : string) : string :=
  if Py.startswith result "Error:" || Py.startswith result "Exception:" then
    if Py.contains "Traceback" result then
      Py.join_lines (filter is_relevant (Py.split_lines result))
    else result
  else
    match highlight result with
    | Return coloured => coloured
    | Raise _ => result
    end.

(** ** The liveness check *)

(** [check_connection(ctx)] (lines 308-322).  [host] and [port] are the process
    configuration, [timestamp] is the text of
    [datetime.now().strftime("%Y-%m-%d %H:%M:%S")].  When
    [send_to_nrepl] raises, [timestamp] is not bound yet and the handler
    fails on reading it. *)
Definition check_connection (w : world) (host : string) (port : Z)
    (timestamp : string) : M string :=
  fun s =>
    match send_to_nrepl w "(+ 1 1)" host port 30 s with
    | (Return result, s') =>
        if String.eqb result "2"
        then (Return ("✅ Connection successful at " ++ timestamp), s')
        else (Return ("⚠️ Connection issue at " ++ timestamp
                      ++ ". Server responded but with unexpected result: "
                      ++ result), s')
    | (Raise e, s') => (Raise (UnboundLocalError "timestamp"), s')
    end.

(** A server that answers the handshake with a session and every
    evaluation with [reply]. *)
Definition scripted_world (session_reply : string) (replies : nat -> outcome string)
  : world :=
  {| socket_raises := None;
     settimeout_raises := None;
     connect_raises := None;
     sendall_raises := fun _ _ => None;
     recv_answer := fun n => match n with
                             | 0 => Return session_reply
                             | S k => replies k
                             end;
     close_raises := None;
     exception_text := fun _ => "fault" |}.

Definition healthy_world : world :=
  scripted_world "d11:new-session2:s16:statusl4:doneee"
    (fun _ => Return "d5:value1:26:statusl4:doneee").

(** ** Vocabulary of the properties *)

(** The text the [except] clauses give for a fault. *)
Definition fault_text (w : world) (e : pyexn) : string :=
  match e with
  | SocketTimeout => "Error: nREPL connection timed out"
  | ConnectionRefusedError =>
      "Error: nREPL connection refused. Is the nREPL server running?"
  | _ => "Error: " ++ exception_text w e
  end.

(** The result of the operation from the outcome of its [try] block. *)
Definition settle (w : world) (o : outcome string) : string :=
  match o with
  | Return r => r
  | Raise e => fault_text w e
  end.

(** A computation is [quiet n] when it only adds calls to the trace,
    never closes the socket, receives at most [n] times and leaves a
    bound [sock] bound. *)
Definition quiet {A} (n : nat) (m : M A) : Prop :=
  forall s o s',
    m s = (o, s') ->
    exists evs,
      trace s' = (trace s ++ evs)%list
      /\ ~ In EvClose evs
      /\ count_recv evs <= n
      /\ (sock s = true -> sock s' = true).

(** A reply that carries both a value and an error. *)
Definition value_and_error : fields :=
  {| new_session := None; value := Some "42"; status := Some ["done"];
     err := Some "boom"; root_ex := None |}.

(** A server whose first reply has no session in it. *)
Definition sessionless_world : world :=
  scripted_world "d6:statusl5:errore2:id1:1e" (fun _ => Return "d5:value1:2e").

(** No listener on the port: the connection is refused. *)
Definition refusing_world : world :=
  {| socket_raises := None;
     settimeout_raises := None;
     connect_raises := Some ConnectionRefusedError;
     sendall_raises := fun _ _ => None;
     recv_answer := fun _ => Return EmptyString;
     close_raises := None;
     exception_text := fun _ => "fault" |}.

(** A server that accepts the connection and never answers: every read
    times out, and so does the close. *)
Definition stalled_world : world :=
  {| socket_raises := None;
     settimeout_raises := None;
     connect_raises := None;
     sendall_raises := fun _ _ => None;
     recv_answer := fun _ => Raise SocketTimeout;
     close_raises := Some SocketTimeout;
     exception_text := fun _ => "fault" |}.

(** A server that gives a session and then sends bytes for ever, with no
    field and no completion marker in them. *)
Definition silent_world : world :=
  scripted_world "d11:new-session2:s1e" (fun _ => Return "x").

(** No match of the pattern [<marker>(\d+):] starts inside [before] when
    [before] is followed by [after]. *)
Fixpoint no_match_within (marker before after : string) : bool :=
  match before with
  | EmptyString => true
  | String _ r =>
      match match_field_at marker (before ++ after) with
      | Some _ => false
      | None => no_match_within marker r after
      end
  end.

(** All the characters are ASCII digits. *)
Fixpoint all_digits (s : string) : bool :=
  match s with
  | EmptyString => true
  | String c r => Py.is_digit c && all_digits r
  end.

(** A request with a payload that looks like the marker of a later key. *)
Definition colliding_request : list (string * pyval) :=
  [("a", VStr "1:b1:x"); ("b", VStr "y")].

(** ** The tools *)

(** [eval_code(code, ctx)] (lines 225-244): the evaluation, then the
    formatting.  The messages logged on [ctx] are not part of the result. *)
Definition eval_code (w : world) (host : string) (port : Z)
    (highlight : string -> outcome string) (code : string) : M string :=
  result <- send_to_nrepl w code host port 30 ;;
  ret (pretty_print_result highlight result).

(** [execute_basilisp(code, ctx)] (lines 247-256). *)
Definition execute_basilisp (w : world) (host : string) (port : Z)
    (highlight : string -> outcome string) (code : string) : M string :=
  eval_code w host port highlight code.

(** [get_docs(symbol, ctx)] (lines 259-270). *)
Definition get_docs (w : world) (host : string) (port : Z)
    (highlight : string -> outcome string) (symbol : string) : M string :=
  eval_code w host port highlight ("(doc " ++ symbol ++ ")").

(** The double quote. *)
Definition double_quote : string := String "034" EmptyString.

(** [list_namespaces(ctx)] (lines 297-305); the escape in the Python
    literal is a line feed in the code that is sent. *)
Definition list_namespaces (w : world) (host : string) (port : Z)
    (highlight : string -> outcome string) : M string :=
  eval_code w host port highlight
    ("(str/join " ++ double_quote ++ Py.newline ++ double_quote
       ++ " (sort (map str (all-ns))))").

(** ** More vocabulary *)

(** The bytes of [count] reads in a row, the first being read number
    [from]. *)
Fixpoint received (w : world) (from count : nat) : string :=
  match count with
  | 0 => EmptyString
  | S n =>
      match recv_answer w from with
      | Return data => data ++ received w (S from) n
      | Raise _ => EmptyString
      end
  end.

(** The calls of a whole exchange, in the order of the protocol: the set-up
    of the socket, the session request and its reply, the evaluate request
    and [reads] reads. *)
Definition protocol_calls (host : string) (port timeout : Z)
    (code session_id : string) (reads : nat) : list event :=
  [EvSocket; EvSetTimeout timeout; EvConnect host port;
   EvSendAll make_session_request; EvRecv 4096;
   EvSendAll (make_eval_request code session_id)]
  ++ repeat (EvRecv 4096) reads.

(** A server that answers an evaluation in two chunks. *)
Definition chunked_world : world :=
  scripted_world "d11:new-session2:s1e"
    (fun n => match n with
              | 0 => Return "d5:value2:4"
              | _ => Return "26:statusl4:doneee"
              end).

(** A server that gives an empty session id. *)
Definition empty_session_world : world :=
  scripted_world "d11:new-session0:e" (fun _ => Return "d5:value1:2e").

(** A server whose evaluation raises: the reply carries the error text. *)
Definition failing_eval_world : world :=
  scripted_world "d11:new-session2:s1e"
    (fun _ => Return ("d3:err28:Traceback: boom" ++ Py.newline ++ "  in frame 36:statusl4:doneee")).

(** A highlighter that colours nothing. *)
Definition plain_highlight (text : string) : outcome string := Return text.

(** A highlighter that always fails. *)
Definition broken_highlight (text : string) : outcome string :=
  Raise (OtherException "no lexer").

(** A server that cuts its reply in the middle of a character of two
    bytes. *)
Definition cutting_world : world :=
  scripted_world "d11:new-session2:s1e"
    (fun n => match n with
              | 0 => Return ("d5:value2:" ++ String "195" EmptyString)
              | _ => Return (String "169" "e6:statusl4:doneee")
              end).

(* ===================================================================== *)
(** * Part II.  Properties                                                *)
(* ===================================================================== *)

(** ** Runs of the embedding on concrete inputs *)

Example make_session_request_bytes :
  make_session_request = "d2:op5:clone7:verbosei1e6:prompti1ee".
Proof. reflexivity. Qed.

Example make_eval_request_bytes :
  make_eval_request "(+ 1 1)" "abc"
  = "d2:op4:eval4:code7:(+ 1 1)7:session3:abce".
Proof. reflexivity. Qed.

Example parse_session_reply :
  parse_bencode_response "d11:new-session3:abc6:statusl4:doneee"
  = Return {| new_session := Some "abc"; value := None;
              status := Some ["done"]; err := None; root_ex := None |}.
Proof. reflexivity. Qed.

Example parse_truncated_value :
  parse_bencode_response "d5:value10:abc"
  = Return {| new_session := None; value := Some "abc"; status := None;
              err := None; root_ex := None |}.
Proof. reflexivity. Qed.

Example healthy_exchange :
  send_to_nrepl healthy_world "(+ 1 1)" "127.0.0.1" 36915 30 initial_state
  = (Return "2",
     {| trace := [EvSocket; EvSetTimeout 30; EvConnect "127.0.0.1" 36915;
                  EvSendAll "d2:op5:clone7:verbosei1e6:prompti1ee";
                  EvRecv 4096;
                  EvSendAll "d2:op4:eval4:code7:(+ 1 1)7:session2:s1e";
                  EvRecv 4096; EvClose];
        sock := true |}).
Proof. vm_compute. reflexivity. Qed.

Example negative_integer :
  bencode_encode [("n", VInt (-12)); ("z", VInt 0)] = "d1:ni-12e1:zi0ee".
Proof. reflexivity. Qed.

Example list_of_scalars :
  bencode_encode [("l", VList [VStr "ab"; VInt 7; VList [VInt 1]; VNone])]
  = "d1:ll2:abi7eee".
Proof. reflexivity. Qed.

(** The length prefix counts code points, the scanner counts bytes: a
    text with a character of two bytes comes back cut, and the cut bytes
    do not decode. *)
Example non_ascii_value :
  bencode_encode [("code", VStr "é")] = "d4:code1:ée"
  /\ Py.len "é" = 1%N /\ Py.blen "é" = 2%N
  /\ extract_field (key_marker "code") (bencode_encode [("code", VStr "é")])
     = Raise (UnicodeDecodeError (String "195" EmptyString)).
Proof. repeat split. Qed.

Example status_needs_one_line :
  search_status_done "6:statusl4:donee" = true
  /\ search_status_done ("6:status" ++ Py.newline ++ "4:done") = false
  /\ search_status_done "4:done 6:status" = false.
Proof. repeat split. Qed.

Example leftmost_match_wins :
  search_field "5:value" "d5:value1:a5:value1:be" = Some ("1", "a5:value1:be")
  /\ search_field "5:value" "d5:valuei3e5:value2:oke" = Some ("2", "oke")
  /\ search_field "5:value" "d5:value007:abcdefghij" = Some ("007", "abcdefghij")
  /\ extract_field "5:value" "d5:value007:abcdefghij" = Return (Some "abcdefg").
Proof. repeat split. Qed.

Example emoji_bytes :
  Py.blen "✅" = 3%N /\ Py.blen "⚠️" = 6%N /\ Py.len "⚠️" = 2%N.
Proof. repeat split. Qed.

(** ** Strings *)

Section StringFacts.

Lemma append_assoc (a b c : string) : (a ++ b) ++ c = a ++ (b ++ c).
Proof. induction a as [|x a IH]; simpl; [reflexivity | now rewrite IH]. Qed.

Lemma append_nil_r (a : string) : a ++ EmptyString = a.
Proof. induction a as [|x a IH]; simpl; [reflexivity | now rewrite IH]. Qed.

Lemma strip_prefix_append (p s : string) : Py.strip_prefix p (p ++ s) = Some s.
Proof.
  induction p as [|x p IH]; simpl; [reflexivity |].
  now rewrite Ascii.eqb_refl.
Qed.

Lemma strip_prefix_sound (p s r : string) :
  Py.strip_prefix p s = Some r -> s = p ++ r.
Proof.
  revert s; induction p as [|x p IH]; simpl; intros s H.
  - now inversion H.
  - destruct s as [|y s]; [discriminate |].
    destruct (Ascii.eqb_spec x y) as [->|]; [| discriminate].
    now rewrite (IH _ H).
Qed.

End StringFacts.

(** ** The encoder *)

Section Encoder.

Lemma bencode_encode_items_app (pre post : list (string * pyval)) :
  bencode_encode_items (pre ++ post)
  = bencode_encode_items pre ++ bencode_encode_items post.
Proof.
  induction pre as [|[k v] pre IH]; simpl; [reflexivity |].
  now rewrite IH, !append_assoc.
Qed.

Lemma bencode_encode_list_app (l1 l2 : list pyval) :
  bencode_encode_list (l1 ++ l2) = bencode_encode_list l1 ++ bencode_encode_list l2.
Proof.
  induction l1 as [|x l1 IH]; simpl; [reflexivity |].
  now rewrite IH, append_assoc.
Qed.

(** What the encoder appends for a value, by the type of the value. *)
Lemma bencode_encode_value_str (s : string) :
  bencode_encode_value (VStr s) = Py.str_N (Py.len s) ++ ":" ++ s.
Proof. reflexivity. Qed.

Lemma bencode_encode_value_int (z : Z) :
  bencode_encode_value (VInt z) = "i" ++ Py.str_Z z ++ "e".
Proof. reflexivity. Qed.

Lemma bencode_encode_value_bool (b : bool) :
  bencode_encode_value (VBool b) = if b then "iTruee" else "iFalsee".
Proof. now destruct b. Qed.

Lemma bencode_encode_item_bool (b : bool) :
  bencode_encode_item (VBool b) = if b then "iTruee" else "iFalsee".
Proof. now destruct b. Qed.

End Encoder.

(** C4 (the code departs from the claim).  The claim: a boolean is encoded
    in the integer form, [i1e] for [True] and [i0e] for [False], at top
    level and inside a list.  The encoder tests [isinstance(v, int)] before
    [isinstance(v, bool)], and a [bool] is an [int]: the branch written for
    booleans is never taken, and the text of the boolean is what is put
    between [i] and [e]. *)
Theorem bool_encoded_by_int_branch :
  bencode_encode [("verbose", VBool true)] = "d7:verboseiTrueee"
  /\ bencode_encode [("verbose", VBool false)] = "d7:verboseiFalseee"
  /\ bencode_encode [("flags", VList [VBool true; VBool false])]
     = "d5:flagsliTrueeiFalseeee"
  /\ (forall b, bencode_encode_value (VBool b) <> "i1e"
                /\ bencode_encode_value (VBool b) <> "i0e")
  /\ (forall b, bencode_encode_item (VBool b) <> "i1e"
                /\ bencode_encode_item (VBool b) <> "i0e").
Proof.
  repeat split; try reflexivity; destruct b; discriminate.
Qed.

(** C10.  A value that is not a string, an integer, a boolean or a list
    (a float, a nested dictionary, [None]) adds nothing after the marker
    of its key: the key is kept, and it is followed at once by the next
    entry or by the closing [e].  The encoder is a total function: no such
    value makes it fail. *)
Theorem unsupported_value_encodes_key_only :
  forall (pre post : list (string * pyval)) (k : string) (v : pyval),
    isinstance v TStr = false ->
    isinstance v TInt = false ->
    isinstance v TBool = false ->
    isinstance v TList = false ->
    bencode_encode_value v = EmptyString
    /\ bencode_encode (pre ++ (k, v) :: post)
       = "d" ++ bencode_encode_items pre ++ key_marker k
             ++ bencode_encode_items post ++ "e".
Proof.
  intros pre post k v Hs Hi Hb Hl.
  assert (Hv : bencode_encode_value v = EmptyString).
  { unfold bencode_encode_value. now rewrite Hs, Hi, Hb, Hl. }
  split; [exact Hv |].
  unfold bencode_encode.
  rewrite bencode_encode_items_app. simpl bencode_encode_items.
  rewrite Hv. simpl. now rewrite !append_assoc.
Qed.

Lemma unsupported_value_encodes_key_only_witness :
  bencode_encode [("op", VStr "eval"); ("ratio", VFloat 5 (-1)); ("code", VStr "x")]
  = "d2:op4:eval5:ratio4:code1:xe"
  /\ bencode_encode [("op", VStr "eval"); ("opts", VDict [("a", VInt 1)])]
     = "d2:op4:eval4:optse".
Proof.
  split.
  - exact (proj2 (unsupported_value_encodes_key_only
                    [("op", VStr "eval")] [("code", VStr "x")] "ratio" (VFloat 5 (-1))
                    eq_refl eq_refl eq_refl eq_refl)).
  - exact (proj2 (unsupported_value_encodes_key_only
                    [("op", VStr "eval")] [] "opts" (VDict [("a", VInt 1)])
                    eq_refl eq_refl eq_refl eq_refl)).
Defined.

(** ** The transport *)

Section Transport.

Variable w : world.

(** A step of a [bind] either raises, and the whole raises, or returns,
    and the rest runs. *)
Lemma bind_inv {A B} (m : M A) (k : A -> M B) (s s' : state) (o : outcome B) :
  bind m k s = (o, s') ->
  (exists e, m s = (Raise e, s') /\ o = Raise e)
  \/ (exists a s1, m s = (Return a, s1) /\ k a s1 = (o, s')).
Proof.
  unfold bind. destruct (m s) as [[a|e] s1]; intros H.
  - right. now exists a, s1.
  - left. exists e. now inversion H.
Qed.

(** The session error, or the resolution of what the read loop returned. *)
Lemma body_returns (code host : string) (port timeout : Z) (s s' : state) (r : string) :
  send_to_nrepl_body w code host port timeout s = (Return r, s') ->
  r = "Error: Could not create nREPL session"
  \/ exists s0 buf parsed,
       read_loop w 100 0 EmptyString s0 = (Return buf, s')
       /\ parse_bencode_response buf = Return parsed
       /\ r = resolve parsed.
Proof.
  unfold send_to_nrepl_body. intros H.
  repeat match type of H with
         | bind _ _ _ = _ =>
             apply bind_inv in H;
             destruct H as [(e & _ & He) | (? & ? & _ & H)]; [discriminate He |]
         end.
  destruct (new_session _) as [sid|].
  - destruct (String.eqb sid EmptyString).
    + left. now inversion H.
    + apply bind_inv in H.
      destruct H as [(e & _ & He) | (? & s0 & _ & H)]; [discriminate He |].
      apply bind_inv in H.
      destruct H as [(e & _ & He) | (buf & s1 & Hloop & H)]; [discriminate He |].
      apply bind_inv in H.
      destruct H as [(e & _ & He) | (parsed & s2 & Hparse & H)]; [discriminate He |].
      unfold lift in Hparse. inversion Hparse; subst.
      unfold ret in H. inversion H; subst.
      right. now exists s0, buf, parsed.
  - left. now inversion H.
Qed.

End Transport.

(** ** Traces *)

Section Traces.

Lemma count_recv_app (a b : list event) :
  count_recv (a ++ b) = count_recv a + count_recv b.
Proof.
  induction a as [|ev a IH]; simpl; [reflexivity |].
  destruct ev; simpl; rewrite IH; reflexivity.
Qed.

Lemma count_sendall_app (a b : list event) :
  count_sendall (a ++ b) = count_sendall a + count_sendall b.
Proof.
  induction a as [|ev a IH]; simpl; [reflexivity |].
  destruct ev; simpl; rewrite IH; reflexivity.
Qed.

Lemma quiet_weaken {A} (n n' : nat) (m : M A) :
  n <= n' -> quiet n m -> quiet n' m.
Proof.
  intros Hn Q s o s' H. destruct (Q s o s' H) as (evs & ? & ? & ? & ?).
  exists evs. repeat split; auto. lia.
Qed.

Lemma quiet_ret {A} (a : A) : quiet 0 (ret a).
Proof.
  intros s o s' H. inversion H; subst. exists []. rewrite app_nil_r.
  repeat split; auto.
Qed.

Lemma quiet_lift {A} (o : outcome A) : quiet 0 (lift o).
Proof.
  intros s o' s' H. inversion H; subst. exists []. rewrite app_nil_r.
  repeat split; auto.
Qed.

Lemma quiet_bind {A B} (n1 n2 : nat) (m : M A) (k : A -> M B) :
  quiet n1 m -> (forall a, quiet n2 (k a)) -> quiet (n1 + n2) (bind m k).
Proof.
  intros Qm Qk s o s' H. apply bind_inv in H.
  destruct H as [(e & H & _) | (a & s1 & H & Hk)].
  - destruct (Qm _ _ _ H) as (evs & ? & ? & ? & ?).
    exists evs. repeat split; auto. lia.
  - destruct (Qm _ _ _ H) as (evs1 & E1 & N1 & C1 & S1).
    destruct (Qk a _ _ _ Hk) as (evs2 & E2 & N2 & C2 & S2).
    exists (evs1 ++ evs2)%list. rewrite E2, E1, app_assoc. repeat split; auto.
    + rewrite in_app_iff. tauto.
    + rewrite count_recv_app. lia.
Qed.

Lemma quiet_call (ev : event) (answer : option pyexn) :
  ev <> EvClose -> count_recv [ev] = 0 -> quiet 0 (call ev answer).
Proof.
  intros Hev Hc s o s' H. exists [ev].
  assert (E : trace s' = (trace s ++ [ev])%list /\ sock s' = sock s).
  { unfold call in H. destruct answer; inversion H; subst; now split. }
  destruct E as [E Es]. repeat split; auto.
  - intros [X | []]. now apply Hev.
  - now rewrite Hc.
  - now rewrite Es.
Qed.

Variable w : world.

Lemma quiet_socket_socket : quiet 0 (socket_socket w).
Proof.
  intros s o s' H. exists [EvSocket]. unfold socket_socket in H.
  destruct (socket_raises w); inversion H; subst; simpl;
    (repeat split; auto; intros [E | []]; discriminate E).
Qed.

Lemma quiet_sock_settimeout (timeout : Z) : quiet 0 (sock_settimeout w timeout).
Proof. apply quiet_call; [discriminate | reflexivity]. Qed.

Lemma quiet_sock_connect (host : string) (port : Z) : quiet 0 (sock_connect w host port).
Proof. apply quiet_call; [discriminate | reflexivity]. Qed.

Lemma quiet_sock_sendall (data : string) : quiet 0 (sock_sendall w data).
Proof.
  intros s o s' H. unfold sock_sendall in H.
  eapply quiet_call; [| | exact H]; [discriminate | reflexivity].
Qed.

Lemma quiet_sock_recv (bufsize : N) : quiet 1 (sock_recv w bufsize).
Proof.
  intros s o s' H. exists [EvRecv bufsize]. unfold sock_recv in H.
  inversion H; subst; simpl. repeat split; auto.
  intros [E | []]; discriminate E.
Qed.

(** The unfolding of the read loop: one turn of the [while]. *)
Lemma read_loop_eq (max_reads reads : nat) (result : string) (s : state) :
  read_loop w max_reads reads result s
  = if lt_dec reads max_reads then
      match sock_recv w 4096 s with
      | (Raise e, s1) => (Raise e, s1)
      | (Return data, s1) =>
          if String.eqb data EmptyString then (Return result, s1)
          else
            match parse_bencode_response (result ++ data) with
            | Raise e => (Raise e, s1)
            | Return parsed =>
                if status_done parsed then (Return (result ++ data), s1)
                else read_loop w max_reads (S reads) (result ++ data) s1
            end
      end
    else (Return result, s).
Proof.
  rewrite read_loop_equation_1.
  destruct (lt_dec reads max_reads); reflexivity.
Qed.

(** The loop receives at most [max_reads - reads] times. *)
Lemma quiet_read_loop (max_reads reads : nat) (result : string) :
  quiet (max_reads - reads) (read_loop w max_reads reads result).
Proof.
  remember (max_reads - reads) as n eqn:En.
  revert reads result En.
  induction n as [|n IH]; intros reads result En s o s' H;
    rewrite read_loop_eq in H;
    destruct (lt_dec reads max_reads) as [Hlt | Hge]; try lia.
  - inversion H; subst. exists []. rewrite app_nil_r. repeat split; auto.
  - unfold sock_recv in H.
    assert (Hlog : forall o0, (o0, log (EvRecv 4096) s) = (o, s') ->
              exists evs, trace s' = (trace s ++ evs)%list /\ ~ In EvClose evs
                          /\ count_recv evs <= S n
                          /\ (sock s = true -> sock s' = true)).
    { intros o0 E. inversion E; subst. exists [EvRecv 4096%N]. simpl.
      repeat split; auto; [intros [X | []]; discriminate X | lia]. }
    destruct (recv_answer w (count_recv (trace s))) as [data | e]; [| eauto].
    destruct (String.eqb data EmptyString); [eauto |].
    destruct (parse_bencode_response (result ++ data)) as [parsed | e]; [| eauto].
    destruct (status_done parsed); [eauto |].
    assert (En' : n = max_reads - S reads) by lia.
    destruct (IH (S reads) (result ++ data) En' _ _ _ H) as (evs & E & NC & C & Sk).
    exists (EvRecv 4096%N :: evs). simpl in E. rewrite E, <- app_assoc. simpl.
    repeat split; auto.
    + intros [X | X]; [discriminate X | contradiction].
    + lia.
Qed.

End Traces.

(** ** The whole operation *)

Section Operation.

Variable w : world.
Variables (code host : string) (port timeout : Z).

Lemma send_to_nrepl_except_eq (e : pyexn) (s : state) :
  send_to_nrepl_except w e s = (Return (fault_text w e), s).
Proof. destruct e; reflexivity. Qed.

(** The [finally] clause never raises; it closes the socket when [sock]
    is bound and does nothing otherwise. *)
Lemma send_to_nrepl_finally_eq (s : state) :
  send_to_nrepl_finally w s
  = (Return tt, if sock s then log EvClose s else s).
Proof.
  unfold send_to_nrepl_finally, try_pass, sock_close, call.
  destruct (sock s); [| reflexivity].
  destruct (close_raises w); reflexivity.
Qed.

Lemma send_to_nrepl_eq (s : state) :
  send_to_nrepl w code host port timeout s
  = let (o, s1) := send_to_nrepl_body w code host port timeout (unbind_sock s) in
    (Return (settle w o), if sock s1 then log EvClose s1 else s1).
Proof.
  unfold send_to_nrepl, try_except_finally.
  destruct (send_to_nrepl_body w code host port timeout (unbind_sock s)) as [[r | e] s1].
  - now rewrite send_to_nrepl_finally_eq.
  - now rewrite send_to_nrepl_except_eq, send_to_nrepl_finally_eq.
Qed.

(** The steps after the handshake. *)
Lemma quiet_evaluate (session_id : string) :
  quiet 100
    (bind (sock_sendall w (make_eval_request code session_id)) (fun _ =>
     bind (read_loop w 100 0 EmptyString) (fun result =>
     bind (lift (parse_bencode_response result)) (fun parsed_result =>
     ret (resolve parsed_result))))).
Proof.
  apply (quiet_weaken (0 + ((100 - 0) + (0 + 0))) 100); [simpl; lia |].
  apply quiet_bind; [apply quiet_sock_sendall | intros _].
  apply quiet_bind; [apply quiet_read_loop | intros result].
  apply quiet_bind; [apply quiet_lift | intros parsed; apply quiet_ret].
Qed.

Lemma quiet_after_socket :
  quiet 101
    (bind (sock_settimeout w timeout) (fun _ =>
     bind (sock_connect w host port) (fun _ =>
     bind (sock_sendall w make_session_request) (fun _ =>
     bind (sock_recv w 4096) (fun session_resp =>
     bind (lift (parse_bencode_response session_resp)) (fun session_data =>
       match new_session session_data with
       | None => ret "Error: Could not create nREPL session"
       | Some session_id =>
           if String.eqb session_id EmptyString
           then ret "Error: Could not create nREPL session"
           else
             bind (sock_sendall w (make_eval_request code session_id)) (fun _ =>
             bind (read_loop w 100 0 EmptyString) (fun result =>
             bind (lift (parse_bencode_response result)) (fun parsed_result =>
             ret (resolve parsed_result))))
       end)))))).
Proof.
  apply (quiet_weaken (0 + (0 + (0 + (1 + (0 + 100))))) 101); [simpl; lia |].
  apply quiet_bind; [apply quiet_sock_settimeout | intros _].
  apply quiet_bind; [apply quiet_sock_connect | intros _].
  apply quiet_bind; [apply quiet_sock_sendall | intros _].
  apply quiet_bind; [apply quiet_sock_recv | intros session_resp].
  apply quiet_bind; [apply quiet_lift | intros session_data].
  destruct (new_session session_data) as [sid |].
  - destruct (String.eqb sid EmptyString).
    + apply (quiet_weaken 0); [lia | apply quiet_ret].
    + apply quiet_evaluate.
  - apply (quiet_weaken 0); [lia | apply quiet_ret].
Qed.

Lemma quiet_body : quiet 101 (send_to_nrepl_body w code host port timeout).
Proof.
  apply (quiet_weaken (0 + 101) 101); [lia |].
  unfold send_to_nrepl_body.
  apply quiet_bind; [apply quiet_socket_socket | intros _; apply quiet_after_socket].
Qed.

(** What the operation adds to the trace. *)
Lemma send_to_nrepl_trace (s : state) :
  exists (r : string) (evs : list event),
    send_to_nrepl w code host port timeout s
    = (Return r,
       {| trace := (trace s ++ evs
                    ++ match socket_raises w with None => [EvClose] | Some _ => [] end)%list;
          sock := match socket_raises w with None => true | Some _ => false end |})
    /\ ~ In EvClose evs
    /\ count_recv evs <= 101
    /\ (socket_raises w = None -> exists evs', evs = EvSocket :: evs').
Proof.
  rewrite send_to_nrepl_eq.
  destruct (send_to_nrepl_body w code host port timeout (unbind_sock s))
    as [o s1] eqn:Hbody.
  exists (settle w o).
  unfold send_to_nrepl_body in Hbody. apply bind_inv in Hbody.
  unfold socket_socket in Hbody at 1 2.
  destruct (socket_raises w) as [e |].
  - destruct Hbody as [(e' & H & _) | (a & s2 & H & _)]; [| discriminate H].
    inversion H; subst. exists [EvSocket]. simpl.
    repeat split; auto.
    + intros [X | []]; discriminate X.
    + lia.
    + discriminate.
  - destruct Hbody as [(e' & H & _) | (a & s2 & H & Hrest)]; [discriminate H |].
    inversion H; subst.
    destruct (quiet_after_socket _ _ _ Hrest) as (evs & E & NC & C & Sk).
    simpl in E, Sk. rewrite (Sk eq_refl).
    exists (EvSocket :: evs). repeat split; auto.
    + unfold log. rewrite E, (Sk eq_refl). simpl.
      now rewrite <- !app_assoc.
    + intros [X | X]; [discriminate X | contradiction].
    + intros _. now exists evs.
Qed.

End Operation.

(** ** The handshake *)

Section Handshake.

Variable w : world.
Variables (code host : string) (port timeout : Z).

Lemma call_eq (ev : event) (answer : option pyexn) (s : state) :
  call ev answer s
  = (match answer with None => Return tt | Some e => Raise e end, log ev s).
Proof. unfold call. now destruct answer. Qed.

(** The calls up to the connection. *)
Lemma body_connect_raises (s : state) (e : pyexn) :
  socket_raises w = None ->
  settimeout_raises w = None ->
  connect_raises w = Some e ->
  send_to_nrepl_body w code host port timeout s
  = (Raise e,
     {| trace := (trace s ++ [EvSocket; EvSetTimeout timeout; EvConnect host port])%list;
        sock := true |}).
Proof.
  intros H1 H2 H3.
  unfold send_to_nrepl_body, bind, socket_socket, sock_settimeout, sock_connect.
  rewrite H1, !call_eq, H2, H3. unfold log. simpl.
  now rewrite <- !app_assoc.
Qed.

(** The calls up to the reply to the session request. *)
Lemma body_handshake (s : state) (answer : outcome string) :
  socket_raises w = None ->
  settimeout_raises w = None ->
  connect_raises w = None ->
  sendall_raises w (count_sendall (trace s)) make_session_request = None ->
  recv_answer w (count_recv (trace s)) = answer ->
  send_to_nrepl_body w code host port timeout s
  = bind (fun s0 => (answer, s0))
      (fun session_resp =>
         bind (lift (parse_bencode_response session_resp))
           (fun session_data =>
              match new_session session_data with
              | None => ret "Error: Could not create nREPL session"
              | Some session_id =>
                  if String.eqb session_id EmptyString
                  then ret "Error: Could not create nREPL session"
                  else
                    bind (sock_sendall w (make_eval_request code session_id)) (fun _ =>
                    bind (read_loop w 100 0 EmptyString) (fun result =>
                    bind (lift (parse_bencode_response result)) (fun parsed_result =>
                    ret (resolve parsed_result))))
              end))
      {| trace := (trace s ++ [EvSocket; EvSetTimeout timeout; EvConnect host port;
                               EvSendAll make_session_request; EvRecv 4096])%list;
         sock := true |}.
Proof.
  intros H1 H2 H3 H4 H5.
  unfold send_to_nrepl_body.
  unfold bind at 1, socket_socket. rewrite H1.
  unfold bind at 1, sock_settimeout. rewrite call_eq, H2.
  unfold bind at 1, sock_connect. rewrite call_eq, H3.
  unfold bind at 1, sock_sendall. rewrite call_eq.
  unfold log at 1 2 3. cbn [trace sock].
  rewrite !count_sendall_app. cbn [count_sendall]. rewrite !Nat.add_0_r, H4.
  unfold bind at 1 4, sock_recv, log. cbn [trace sock].
  rewrite !count_recv_app. cbn [count_recv]. rewrite !Nat.add_0_r, H5.
  rewrite <- !app_assoc. reflexivity.
Qed.

End Handshake.

(** C1.  The decoded mapping of a completed exchange is resolved with a
    fixed priority.  An exchange is completed when the session was
    created, the evaluate request was sent and the read loop returned a
    buffer, which was then decoded.  The operation then returns the
    resolution of this decoded mapping: the error string when [err] is
    present, else the exception string when [root-ex] is present, else the
    value text when [value] is present, else [No result]; with both [err]
    and [value] present it returns the error. *)
Theorem resolution_priority :
  forall (w : world) (code host : string) (port timeout : Z) (s s_loop : state)
         (session_resp session_id buf : string) (session_data parsed : fields),
    socket_raises w = None ->
    settimeout_raises w = None ->
    connect_raises w = None ->
    sendall_raises w (count_sendall (trace s)) make_session_request = None ->
    recv_answer w (count_recv (trace s)) = Return session_resp ->
    parse_bencode_response session_resp = Return session_data ->
    new_session session_data = Some session_id ->
    session_id <> EmptyString ->
    sendall_raises w (S (count_sendall (trace s))) (make_eval_request code session_id)
    = None ->
    read_loop w 100 0 EmptyString
      {| trace := (trace s ++ [EvSocket; EvSetTimeout timeout; EvConnect host port;
                               EvSendAll make_session_request; EvRecv 4096;
                               EvSendAll (make_eval_request code session_id)])%list;
         sock := true |}
    = (Return buf, s_loop) ->
    parse_bencode_response buf = Return parsed ->
    send_to_nrepl w code host port timeout s
    = (Return (resolve parsed), log EvClose s_loop)
    /\ (forall e, err parsed = Some e ->
                  fst (send_to_nrepl w code host port timeout s)
                  = Return ("Error: " ++ e))
    /\ (forall x, err parsed = None -> root_ex parsed = Some x ->
                  fst (send_to_nrepl w code host port timeout s)
                  = Return ("Exception: " ++ x))
    /\ (forall v, err parsed = None -> root_ex parsed = None ->
                  value parsed = Some v ->
                  fst (send_to_nrepl w code host port timeout s) = Return v)
    /\ (err parsed = None -> root_ex parsed = None -> value parsed = None ->
        fst (send_to_nrepl w code host port timeout s) = Return "No result")
    /\ (forall e v, err parsed = Some e -> value parsed = Some v ->
                    fst (send_to_nrepl w code host port timeout s)
                    = Return ("Error: " ++ e)).
Proof.
  intros w code host port timeout s s_loop resp sid buf data parsed
         H1 H2 H3 H4 H5 H6 H7 H8 H9 Hloop Hparse.
  assert (Hrun : send_to_nrepl w code host port timeout s
                 = (Return (resolve parsed), log EvClose s_loop)).
  { rewrite send_to_nrepl_eq.
    rewrite (body_handshake w code host port timeout (unbind_sock s) (Return resp)
               H1 H2 H3 H4 H5).
    unfold bind at 1. unfold bind at 1. unfold lift. rewrite H6, H7.
    destruct (String.eqb_spec sid EmptyString) as [| _]; [contradiction |].
    unfold bind at 1. unfold sock_sendall. rewrite call_eq.
    cbn [trace unbind_sock]. rewrite count_sendall_app. cbn [count_sendall].
    rewrite Nat.add_1_r, H9.
    unfold bind at 1. unfold log at 1. cbn [trace sock].
    rewrite <- app_assoc. cbn [app]. rewrite Hloop.
    unfold bind, ret. rewrite Hparse. cbn [settle].
    destruct (quiet_read_loop w 100 0 EmptyString _ _ _ Hloop) as (_ & _ & _ & _ & Hs).
    now rewrite (Hs eq_refl). }
  split; [exact Hrun |]. rewrite Hrun. cbn [fst]. unfold resolve.
  repeat split.
  - intros e ->. reflexivity.
  - intros x -> ->. reflexivity.
  - intros v -> -> ->. reflexivity.
  - intros -> -> ->. reflexivity.
  - intros e v -> _. reflexivity.
Qed.

Lemma resolution_priority_witness :
  send_to_nrepl failing_eval_world "(boom)" "127.0.0.1" 36915 30 initial_state
  = (Return ("Error: Traceback: boom" ++ Py.newline ++ "  in frame 3"),
     {| trace := [EvSocket; EvSetTimeout 30; EvConnect "127.0.0.1" 36915;
                  EvSendAll make_session_request; EvRecv 4096;
                  EvSendAll (make_eval_request "(boom)" "s1"); EvRecv 4096;
                  EvClose];
        sock := true |})
  /\ fst (send_to_nrepl healthy_world "(+ 1 1)" "127.0.0.1" 36915 30 initial_state)
     = Return "2".
Proof.
  split.
  - exact (proj1 (resolution_priority failing_eval_world "(boom)" "127.0.0.1"
                    36915%Z 30%Z initial_state
                    {| trace := [EvSocket; EvSetTimeout 30; EvConnect "127.0.0.1" 36915;
                                 EvSendAll make_session_request; EvRecv 4096%N;
                                 EvSendAll (make_eval_request "(boom)" "s1");
                                 EvRecv 4096%N];
                       sock := true |}
                    "d11:new-session2:s1e" "s1"
                    ("d3:err28:Traceback: boom" ++ Py.newline
                     ++ "  in frame 36:statusl4:doneee")
                    {| new_session := Some "s1"; value := None; status := None;
                       err := None; root_ex := None |}
                    {| new_session := None; value := None; status := Some ["done"];
                       err := Some ("Traceback: boom" ++ Py.newline ++ "  in frame 3");
                       root_ex := None |}
                    eq_refl eq_refl eq_refl eq_refl eq_refl eq_refl eq_refl
                    ltac:(discriminate) eq_refl eq_refl eq_refl)).
  - exact (proj1 (proj2 (proj2 (proj2
             (resolution_priority healthy_world "(+ 1 1)" "127.0.0.1"
                36915%Z 30%Z initial_state
                {| trace := [EvSocket; EvSetTimeout 30; EvConnect "127.0.0.1" 36915;
                             EvSendAll make_session_request; EvRecv 4096%N;
                             EvSendAll (make_eval_request "(+ 1 1)" "s1");
                             EvRecv 4096%N];
                   sock := true |}
                "d11:new-session2:s16:statusl4:doneee" "s1"
                "d5:value1:26:statusl4:doneee"
                {| new_session := Some "s1"; value := None; status := Some ["done"];
                   err := None; root_ex := None |}
                {| new_session := None; value := Some "2"; status := Some ["done"];
                   err := None; root_ex := None |}
                eq_refl eq_refl eq_refl eq_refl eq_refl eq_refl eq_refl
                ltac:(discriminate) eq_refl eq_refl eq_refl))))
             "2" eq_refl eq_refl eq_refl).
Defined.

(** C6.  When the reply to the session request decodes to a mapping with
    no [new-session] field, the transport returns
    [Error: Could not create nREPL session]; the calls it makes are the
    socket set-up, the session request, one read and the close: the
    evaluate request is never sent and nothing is tried again. *)
Theorem session_handshake_failure :
  forall (w : world) (code host : string) (port timeout : Z) (s : state)
         (session_resp : string) (session_data : fields),
    socket_raises w = None ->
    settimeout_raises w = None ->
    connect_raises w = None ->
    sendall_raises w (count_sendall (trace s)) make_session_request = None ->
    recv_answer w (count_recv (trace s)) = Return session_resp ->
    parse_bencode_response session_resp = Return session_data ->
    new_session session_data = None ->
    send_to_nrepl w code host port timeout s
    = (Return "Error: Could not create nREPL session",
       {| trace := (trace s ++ [EvSocket; EvSetTimeout timeout; EvConnect host port;
                                EvSendAll make_session_request; EvRecv 4096;
                                EvClose])%list;
          sock := true |})
    /\ forall session_id,
         ~ In (EvSendAll (make_eval_request code session_id))
              [EvSocket; EvSetTimeout timeout; EvConnect host port;
               EvSendAll make_session_request; EvRecv 4096; EvClose].
Proof.
  intros w code host port timeout s resp data H1 H2 H3 H4 H5 H6 H7. split.
  - rewrite send_to_nrepl_eq.
    rewrite (body_handshake w code host port timeout (unbind_sock s) (Return resp)
               H1 H2 H3 H4 H5).
    unfold bind at 1. unfold bind at 1. unfold lift. rewrite H6, H7.
    unfold ret, log. cbn [sock trace settle]. now rewrite <- app_assoc.
  - intros sid [X | [X | [X | [X | [X | [X | []]]]]]]; discriminate X.
Qed.

Lemma session_handshake_failure_witness :
  send_to_nrepl sessionless_world "(+ 1 1)" "127.0.0.1" 36915 30 initial_state
  = (Return "Error: Could not create nREPL session",
     {| trace := [EvSocket; EvSetTimeout 30; EvConnect "127.0.0.1" 36915;
                  EvSendAll make_session_request; EvRecv 4096; EvClose];
        sock := true |}).
Proof.
  exact (proj1 (session_handshake_failure sessionless_world "(+ 1 1)" "127.0.0.1"
                  36915%Z 30%Z initial_state "d6:statusl5:errore2:id1:1e"
                  {| new_session := None; value := None; status := None;
                     err := None; root_ex := None |}
                  eq_refl eq_refl eq_refl eq_refl eq_refl eq_refl eq_refl)).
Defined.

(** C7.  The transport always returns a string: no fault of the socket,
    of the decoder or of anything else in the [try] block reaches the
    caller.  Whatever the [try] block raises is turned into a text; a
    timeout gives [Error: nREPL connection timed out], a refused
    connection gives the text that names the refusal, any other fault
    gives [Error: ] followed by its own text. *)
Theorem transport_never_raises :
  forall (w : world) (code host : string) (port timeout : Z) (s : state),
    (exists r s', send_to_nrepl w code host port timeout s = (Return r, s'))
    /\ (forall e s1,
           send_to_nrepl_body w code host port timeout (unbind_sock s) = (Raise e, s1) ->
           fst (send_to_nrepl w code host port timeout s) = Return (fault_text w e))
    /\ fault_text w SocketTimeout = "Error: nREPL connection timed out"
    /\ fault_text w ConnectionRefusedError
       = "Error: nREPL connection refused. Is the nREPL server running?"
    /\ (forall e, e <> SocketTimeout -> e <> ConnectionRefusedError ->
                  fault_text w e = "Error: " ++ exception_text w e)
    /\ (forall e,
           socket_raises w = None -> settimeout_raises w = None ->
           connect_raises w = Some e ->
           fst (send_to_nrepl w code host port timeout s) = Return (fault_text w e))
    /\ (forall e,
           socket_raises w = None -> settimeout_raises w = None ->
           connect_raises w = None ->
           sendall_raises w (count_sendall (trace s)) make_session_request = None ->
           recv_answer w (count_recv (trace s)) = Raise e ->
           fst (send_to_nrepl w code host port timeout s) = Return (fault_text w e)).
Proof.
  intros w code host port timeout s.
  assert (Hraise : forall e s1,
             send_to_nrepl_body w code host port timeout (unbind_sock s) = (Raise e, s1) ->
             fst (send_to_nrepl w code host port timeout s) = Return (fault_text w e)).
  { intros e s1 H. rewrite send_to_nrepl_eq, H. reflexivity. }
  repeat split.
  - destruct (send_to_nrepl_trace w code host port timeout s) as (r & evs & H & _).
    eauto.
  - exact Hraise.
  - intros e H1 H2. destruct e; try reflexivity; contradiction.
  - intros e H1 H2 H3. eapply Hraise.
    now apply body_connect_raises.
  - intros e H1 H2 H3 H4 H5. eapply Hraise.
    rewrite (body_handshake w code host port timeout (unbind_sock s) (Raise e)
               H1 H2 H3 H4 H5).
    reflexivity.
Qed.

Lemma transport_never_raises_witness :
  fst (send_to_nrepl refusing_world "(+ 1 1)" "127.0.0.1" 36915 30 initial_state)
  = Return "Error: nREPL connection refused. Is the nREPL server running?"
  /\ fst (send_to_nrepl stalled_world "(+ 1 1)" "127.0.0.1" 36915 30 initial_state)
     = Return "Error: nREPL connection timed out"
  /\ fault_text refusing_world (OtherException "broken pipe")
     = "Error: " ++ exception_text refusing_world (OtherException "broken pipe").
Proof.
  pose proof (transport_never_raises refusing_world "(+ 1 1)" "127.0.0.1" 36915%Z 30%Z
                initial_state) as (_ & _ & _ & _ & Hother & Hconnect & _).
  pose proof (transport_never_raises stalled_world "(+ 1 1)" "127.0.0.1" 36915%Z 30%Z
                initial_state) as (_ & _ & _ & _ & _ & _ & Hrecv).
  split; [| split].
  - exact (Hconnect ConnectionRefusedError eq_refl eq_refl eq_refl).
  - exact (Hrecv SocketTimeout eq_refl eq_refl eq_refl eq_refl eq_refl).
  - apply Hother; discriminate.
Defined.

(** C8.  Once the socket is created, the operation closes it before it
    returns, whatever happened after: the close is the last call of the
    operation on the socket, and it is made once. *)
Theorem socket_closed_on_every_path :
  forall (w : world) (code host : string) (port timeout : Z) (s : state),
    socket_raises w = None ->
    exists (r : string) (calls : list event),
      send_to_nrepl w code host port timeout s
      = (Return r,
         {| trace := (trace s ++ EvSocket :: calls ++ [EvClose])%list;
            sock := true |})
      /\ ~ In EvClose calls.
Proof.
  intros w code host port timeout s Hsock.
  destruct (send_to_nrepl_trace w code host port timeout s)
    as (r & evs & H & NC & _ & Hfirst).
  rewrite Hsock in H. destruct (Hfirst Hsock) as (calls & ->).
  exists r, calls. split; [exact H |].
  intros X. apply NC. now right.
Qed.

Lemma socket_closed_on_every_path_witness :
  exists (r : string) (calls : list event),
    send_to_nrepl stalled_world "(+ 1 1)" "127.0.0.1" 36915 30 initial_state
    = (Return r,
       {| trace := ([] ++ EvSocket :: calls ++ [EvClose])%list; sock := true |})
    /\ ~ In EvClose calls.
Proof.
  exact (socket_closed_on_every_path stalled_world "(+ 1 1)" "127.0.0.1" 36915%Z 30%Z
           initial_state eq_refl).
Defined.

(** C2.  The read loop ends: entered with [reads] below [max_reads] it
    reads at most [max_reads - reads] times, and the whole operation reads
    at most once for the handshake and 100 times for the evaluation.  A
    read of zero bytes ends the loop at once, and so does a buffer whose
    decoding has [done] in [status].  The operation then returns a string
    whatever arrived, [No result] when the decoded buffer has no [err], no
    [root-ex] and no [value]: a server that sends bytes for ever with no
    marker in them is read 100 times and answered with [No result]. *)
Theorem read_loop_terminates :
  (forall w max_reads reads result s,
      count_recv (trace (snd (read_loop w max_reads reads result s)))
      <= count_recv (trace s) + (max_reads - reads))
  /\ (forall w max_reads reads result s,
         reads < max_reads ->
         recv_answer w (count_recv (trace s)) = Return EmptyString ->
         read_loop w max_reads reads result s = (Return result, log (EvRecv 4096) s))
  /\ (forall w max_reads reads result s data parsed,
         reads < max_reads ->
         recv_answer w (count_recv (trace s)) = Return data ->
         data <> EmptyString ->
         parse_bencode_response (result ++ data) = Return parsed ->
         status_done parsed = true ->
         read_loop w max_reads reads result s
         = (Return (result ++ data), log (EvRecv 4096) s))
  /\ (forall w code host port timeout s,
         exists r s',
           send_to_nrepl w code host port timeout s = (Return r, s')
           /\ count_recv (trace s') <= count_recv (trace s) + 1 + 100)
  /\ (forall parsed,
         err parsed = None -> root_ex parsed = None -> value parsed = None ->
         resolve parsed = "No result")
  /\ (let run := send_to_nrepl silent_world "(+ 1 1)" "127.0.0.1" 36915 30 initial_state in
      fst run = Return "No result"
      /\ count_recv (trace (snd run)) = 1 + 100).
Proof.
  split; [| split; [| split; [| split; [| split]]]].
  - intros w max_reads reads result s.
    destruct (read_loop w max_reads reads result s) as [o s'] eqn:H.
    destruct (quiet_read_loop w max_reads reads result s o s' H) as (evs & E & _ & C & _).
    simpl. rewrite E, count_recv_app. lia.
  - intros w max_reads reads result s Hlt Hrecv.
    rewrite read_loop_eq. destruct (lt_dec reads max_reads); [| contradiction].
    unfold sock_recv. rewrite Hrecv. reflexivity.
  - intros w max_reads reads result s data parsed Hlt Hrecv Hdata Hparse Hdone.
    rewrite read_loop_eq. destruct (lt_dec reads max_reads); [| contradiction].
    unfold sock_recv. rewrite Hrecv.
    destruct (String.eqb_spec data EmptyString); [contradiction |].
    now rewrite Hparse, Hdone.
  - intros w code host port timeout s.
    destruct (send_to_nrepl_trace w code host port timeout s) as (r & evs & H & _ & C & _).
    eexists; eexists; split; [exact H |].
    cbn [trace]. rewrite !count_recv_app.
    destruct (socket_raises w); simpl; lia.
  - intros parsed He Hx Hv. unfold resolve. now rewrite He, Hx, Hv.
  - vm_compute. split; reflexivity.
Qed.

Lemma read_loop_terminates_witness :
  read_loop healthy_world 100 0 EmptyString
    {| trace := [EvRecv 4096]; sock := true |}
  = (Return "d5:value1:26:statusl4:doneee",
     {| trace := [EvRecv 4096; EvRecv 4096]; sock := true |})
  /\ read_loop refusing_world 100 7 "abc" initial_state
     = (Return "abc", {| trace := [EvRecv 4096]; sock := false |})
  /\ resolve {| new_session := None; value := None; status := Some ["done"];
                err := None; root_ex := None |} = "No result".
Proof.
  destruct read_loop_terminates as (_ & Hzero & Hdone & _ & Hnone & _).
  split; [| split].
  - apply (Hdone healthy_world 100 0 EmptyString
             {| trace := [EvRecv 4096%N]; sock := true |}
             "d5:value1:26:statusl4:doneee"
             {| new_session := None; value := Some "2"; status := Some ["done"];
                err := None; root_ex := None |}).
    + repeat constructor.
    + reflexivity.
    + discriminate.
    + reflexivity.
    + reflexivity.
  - apply (Hzero refusing_world 100 7 "abc" initial_state).
    + repeat constructor.
    + reflexivity.
  - apply Hnone; reflexivity.
Defined.

(** ** The liveness check *)

(** C9.  The liveness check evaluates [(+ 1 1)].  It never fails: when
    the text that comes back is [2] it returns the success line with the
    time stamp, and for any other text it returns the warning line with
    the time stamp and that text. *)
Theorem liveness_check :
  forall (w : world) (host : string) (port : Z) (timestamp : string) (s : state),
    (exists line s', check_connection w host port timestamp s = (Return line, s'))
    /\ forall r s',
         send_to_nrepl w "(+ 1 1)" host port 30 s = (Return r, s') ->
         (r = "2" ->
          check_connection w host port timestamp s
          = (Return ("✅ Connection successful at " ++ timestamp), s'))
         /\ (r <> "2" ->
             check_connection w host port timestamp s
             = (Return ("⚠️ Connection issue at " ++ timestamp
                        ++ ". Server responded but with unexpected result: " ++ r),
                s')).
Proof.
  intros w host port timestamp s.
  assert (Hrun : forall r s',
             send_to_nrepl w "(+ 1 1)" host port 30 s = (Return r, s') ->
             check_connection w host port timestamp s
             = (Return (if String.eqb r "2"
                        then "✅ Connection successful at " ++ timestamp
                        else "⚠️ Connection issue at " ++ timestamp
                             ++ ". Server responded but with unexpected result: "
                             ++ r), s')).
  { intros r s' H. unfold check_connection. rewrite H.
    now destruct (String.eqb r "2"). }
  split.
  - destruct (send_to_nrepl_trace w "(+ 1 1)" host port 30 s) as (r & evs & H & _).
    rewrite (Hrun _ _ H). eauto.
  - intros r s' H. rewrite (Hrun _ _ H). split.
    + intros ->. reflexivity.
    + intros Hr. apply String.eqb_neq in Hr. now rewrite Hr.
Qed.

Lemma liveness_check_witness :
  fst (check_connection healthy_world "127.0.0.1" 36915 "2025-01-31 12:00:00"
                        initial_state)
  = Return "✅ Connection successful at 2025-01-31 12:00:00"
  /\ fst (check_connection refusing_world "127.0.0.1" 36915 "2025-01-31 12:00:00"
                           initial_state)
     = Return ("⚠️ Connection issue at 2025-01-31 12:00:00. Server responded but with unexpected result: Error: nREPL connection refused. Is the nREPL server running?").
Proof.
  split.
  - destruct (liveness_check healthy_world "127.0.0.1" 36915%Z "2025-01-31 12:00:00"
                initial_state) as [_ H].
    destruct (H "2" (snd (send_to_nrepl healthy_world "(+ 1 1)" "127.0.0.1" 36915%Z 30%Z
                            initial_state))) as [Hok _]; [vm_compute; reflexivity |].
    rewrite (Hok eq_refl). reflexivity.
  - destruct (liveness_check refusing_world "127.0.0.1" 36915%Z "2025-01-31 12:00:00"
                initial_state) as [_ H].
    destruct (H "Error: nREPL connection refused. Is the nREPL server running?"
                (snd (send_to_nrepl refusing_world "(+ 1 1)" "127.0.0.1" 36915%Z 30%Z
                        initial_state))) as [_ Hwarn]; [vm_compute; reflexivity |].
    rewrite Hwarn; [reflexivity | discriminate].
Defined.

(** ** The result interpreter *)

Section Lines.

Lemma split_lines_not_nil (s : string) : Py.split_lines s <> [].
Proof.
  induction s as [|c r IH]; simpl; [discriminate |].
  destruct (Ascii.eqb c Py.LF); [discriminate |].
  destruct (Py.split_lines r); discriminate.
Qed.

(** A text with no line feed is one line. *)
Lemma split_lines_one (l : string) :
  Py.has_LF l = false -> Py.split_lines l = [l].
Proof.
  induction l as [|c r IH]; simpl; [reflexivity |].
  intros H. apply orb_false_iff in H. destruct H as [Hc Hr].
  now rewrite Hc, (IH Hr).
Qed.

(** The first line feed ends the first line. *)
Lemma split_lines_first (l rest : string) :
  Py.has_LF l = false ->
  Py.split_lines (l ++ String Py.LF rest) = l :: Py.split_lines rest.
Proof.
  induction l as [|c r IH]; simpl; intros H.
  - reflexivity.
  - apply orb_false_iff in H. destruct H as [Hc Hr].
    now rewrite Hc, (IH Hr).
Qed.

(** No line of a split text has a line feed. *)
Lemma split_lines_no_LF (s : string) :
  Forall (fun l => Py.has_LF l = false) (Py.split_lines s).
Proof.
  induction s as [|c r IH]; simpl.
  - now repeat constructor.
  - destruct (Ascii.eqb c Py.LF) eqn:Hc.
    + now constructor.
    + destruct (Py.split_lines r) as [|l ls].
      * repeat constructor. simpl. now rewrite Hc.
      * inversion IH; subst. constructor; [| assumption].
        simpl. now rewrite Hc.
Qed.

(** Splitting what was joined gives the lines back. *)
Lemma split_join_lines (ls : list string) :
  ls <> [] ->
  Forall (fun l => Py.has_LF l = false) ls ->
  Py.split_lines (Py.join_lines ls) = ls.
Proof.
  induction ls as [|l ls IH]; [congruence |].
  intros _ H. inversion H as [|? ? Hl Hls]; subst.
  destruct ls as [|l' ls].
  - simpl. now apply split_lines_one.
  - change (Py.join_lines (l :: l' :: ls))
      with (l ++ String Py.LF (Py.join_lines (l' :: ls))).
    rewrite (split_lines_first _ _ Hl). f_equal.
    apply IH; [discriminate | assumption].
Qed.

Lemma filter_no_LF (f : string -> bool) (ls : list string) :
  Forall (fun l => Py.has_LF l = false) ls ->
  Forall (fun l => Py.has_LF l = false) (filter f ls).
Proof.
  induction 1 as [|l ls Hl Hls IH]; simpl; [constructor |].
  destruct (f l); [now constructor | assumption].
Qed.

Lemma contains_of_prefix (x s : string) :
  Py.startswith s x = true -> Py.contains x s = true.
Proof.
  unfold Py.startswith. destruct s; simpl; now destruct (Py.strip_prefix x _).
Qed.

(** A text that starts with [p], a text with no line feed, has a first
    line that starts with [p]. *)
Lemma first_line_startswith (p s : string) :
  Py.has_LF p = false ->
  Py.startswith s p = true ->
  exists l ls, Py.split_lines s = l :: ls /\ Py.startswith l p = true.
Proof.
  unfold Py.startswith. revert s.
  induction p as [|a p IH]; intros s Hp Hs.
  - destruct (Py.split_lines s) as [|l ls] eqn:E.
    + now apply split_lines_not_nil in E.
    + now exists l, ls.
  - simpl in Hp. apply orb_false_iff in Hp. destruct Hp as [Ha Hp].
    destruct s as [|b s]; [discriminate |]. simpl in Hs.
    destruct (Ascii.eqb_spec a b) as [<- |]; [| discriminate].
    destruct (IH s Hp Hs) as (l & ls & E & Hl).
    exists (String a l), ls. simpl. rewrite Ha, E, Ascii.eqb_refl. now split.
Qed.

(** The first line of an error or exception message is kept. *)
Lemma first_line_relevant (result : string) :
  Py.startswith result "Error:" = true \/ Py.startswith result "Exception:" = true ->
  filter is_relevant (Py.split_lines result) <> [].
Proof.
  intros [H | H];
    apply first_line_startswith in H; try reflexivity;
    destruct H as (l & ls & -> & Hl); apply contains_of_prefix in Hl;
    simpl; unfold is_relevant, relevant_parts; cbn [existsb];
    rewrite Hl, ?orb_true_r; discriminate.
Qed.

End Lines.

(** C5, as the claim states it, at a message of two lines that has no
    [Traceback] in it: the first line matches the whitelist, the second
    does not, and the interpreter returns the message as it is, second
    line included. *)
Lemma trace_filtering_counterexample :
  let result := "Error: boom" ++ Py.newline ++ "at top level" in
  Py.startswith result "Error:" = true
  /\ existsb is_relevant (Py.split_lines result) = true
  /\ existsb (fun l => negb (is_relevant l)) (Py.split_lines result) = true
  /\ Py.split_lines (pretty_print_result (fun r => Return r) result)
     = ["Error: boom"; "at top level"]
  /\ Py.split_lines (pretty_print_result (fun r => Return r) result)
     <> filter is_relevant (Py.split_lines result).
Proof.
  vm_compute. repeat split; discriminate.
Qed.

(** C5 (amended).  For an error or exception message that has
    [Traceback] in it, the lines of the interpreter's output are the lines
    of the message that match the whitelist, in their order. *)
Theorem trace_filtering :
  forall (highlight : string -> outcome string) (result : string),
    Py.startswith result "Error:" = true \/ Py.startswith result "Exception:" = true ->
    (Py.contains "Traceback" result = true ->
     Py.split_lines (pretty_print_result highlight result)
     = filter is_relevant (Py.split_lines result))
    /\ (Py.contains "Traceback" result = false ->
        pretty_print_result highlight result = result).
Proof.
  intros highlight result Hstart.
  unfold pretty_print_result.
  assert (Hor : Py.startswith result "Error:" || Py.startswith result "Exception:" = true).
  { apply orb_true_iff. exact Hstart. }
  rewrite Hor. split; intros Htb; rewrite Htb; [| reflexivity].
  apply split_join_lines.
  - now apply first_line_relevant.
  - apply filter_no_LF, split_lines_no_LF.
Qed.

Lemma trace_filtering_witness :
  Py.split_lines
    (pretty_print_result (fun r => Return r)
       ("Error: Traceback (most recent call last):" ++ Py.newline
        ++ "  File repl.lpy, line 3, in eval" ++ Py.newline
        ++ "    (boom)" ++ Py.newline
        ++ "NameError: boom"))
  = ["Error: Traceback (most recent call last):";
     "  File repl.lpy, line 3, in eval";
     "NameError: boom"].
Proof.
  exact (proj1 (trace_filtering (fun r => Return r)
           ("Error: Traceback (most recent call last):" ++ Py.newline
            ++ "  File repl.lpy, line 3, in eval" ++ Py.newline
            ++ "    (boom)" ++ Py.newline
            ++ "NameError: boom")
           (or_introl eq_refl)) eq_refl).
Defined.

(** ** Encoding, then scanning *)

Section Scan.

Lemma string_of_uint_digits (d : Decimal.uint) :
  all_digits (NilEmpty.string_of_uint d) = true.
Proof. induction d; simpl; auto. Qed.

Lemma str_N_digits (n : N) : all_digits (Py.str_N n) = true.
Proof. apply string_of_uint_digits. Qed.

Lemma str_N_not_empty (n : N) : exists c r, Py.str_N n = String c r.
Proof.
  unfold Py.str_N. destruct n as [|p]; simpl; [now eexists; eexists |].
  pose proof (DecimalPos.Unsigned.to_uint_nonnil p) as H.
  destruct (Pos.to_uint p); simpl; [now contradiction H | ..];
    now eexists; eexists.
Qed.

Lemma int_of_str_N (n : N) : Py.decimal_value (Py.str_N n) = n.
Proof.
  unfold Py.decimal_value, Py.str_N.
  now rewrite NilEmpty.usu, DecimalN.Unsigned.of_to.
Qed.

(** The run of digits of a length prefix stops at its colon. *)
Lemma span_digits_prefix (ds rest : string) :
  all_digits ds = true ->
  span_digits (ds ++ String ":" rest) = (ds, String ":" rest).
Proof.
  induction ds as [|c r IH]; simpl; intros H; [reflexivity |].
  apply andb_true_iff in H. destruct H as [Hc Hr].
  now rewrite Hc, (IH Hr).
Qed.

(** The pattern matches where an entry with a text value starts. *)
Lemma match_field_at_entry (marker payload rest : string) (n : N) :
  match_field_at marker (marker ++ Py.str_N n ++ ":" ++ payload ++ rest)
  = Some (Py.str_N n, payload ++ rest).
Proof.
  unfold match_field_at. rewrite strip_prefix_append.
  change (":" ++ payload ++ rest) with (String ":" (payload ++ rest)).
  rewrite (span_digits_prefix _ _ (str_N_digits n)).
  destruct (str_N_not_empty n) as (c & r & E).
  now rewrite E.
Qed.

Lemma search_field_skip (marker before after : string) :
  no_match_within marker before after = true ->
  search_field marker (before ++ after) = search_field marker after.
Proof.
  induction before as [|c r IH]; [reflexivity |].
  cbn [no_match_within]. intros H.
  destruct (match_field_at marker (String c r ++ after)) eqn:E; [discriminate |].
  change (String c r ++ after) with (String c (r ++ after)) in *.
  cbn [search_field]. rewrite E. now apply IH.
Qed.

Lemma search_field_here (marker data : string) (m : string * string) :
  match_field_at marker data = Some m -> search_field marker data = Some m.
Proof. intros H. destruct data; simpl; now rewrite H. Qed.

Lemma take_blen (s rest : string) : Py.take (Py.blen s) (s ++ rest) = s.
Proof.
  induction s as [|c r IH]; simpl.
  - now destruct rest.
  - destruct (N.eqb_spec (N.succ (Py.blen r)) 0) as [E |]; [lia |].
    now rewrite N.pred_succ, IH.
Qed.

Lemma ascii_char_not_continuation (c : ascii) :
  Py.is_ascii_char c = true -> Py.is_continuation c = false.
Proof.
  unfold Py.is_ascii_char, Py.is_continuation, Py.between. intros H.
  apply N.ltb_lt in H. apply andb_false_iff. left. apply N.leb_gt. lia.
Qed.

(** In ASCII text a character is a byte. *)
Lemma len_ascii (s : string) : Py.is_ascii s = true -> Py.len s = Py.blen s.
Proof.
  induction s as [|c r IH]; simpl; [reflexivity |]. intros H.
  apply andb_true_iff in H. destruct H as [Hc Hr].
  now rewrite (ascii_char_not_continuation _ Hc), (IH Hr).
Qed.

Lemma utf8_valid_ascii (s : string) : Py.is_ascii s = true -> Py.utf8_valid s = true.
Proof.
  induction s as [|c r IH]; [reflexivity |]. cbn [Py.is_ascii Py.utf8_valid]. intros H.
  apply andb_true_iff in H. destruct H as [Hc Hr].
  now rewrite Hc, (IH Hr).
Qed.

Lemma decode_ascii (s : string) : Py.is_ascii s = true -> decode s = Return s.
Proof. intros H. unfold decode. now rewrite (utf8_valid_ascii _ H). Qed.

(** A marker starts with a digit, and so matches nowhere at the opening
    [d] of the dictionary. *)
Lemma no_match_at_opening (k after : string) :
  no_match_within (key_marker k) "d" after = true.
Proof.
  cbn [no_match_within]. unfold match_field_at, key_marker.
  destruct (str_N_not_empty (Py.len k)) as (c & r & E).
  pose proof (str_N_digits (Py.len k)) as D. rewrite E in *.
  cbn [all_digits] in D. apply andb_true_iff in D. destruct D as [Dc _].
  simpl. destruct (Ascii.eqb_spec c "d") as [-> |]; [discriminate Dc | reflexivity].
Qed.

End Scan.

(** C3, as the claim states it, at a request of two text values: the
    payload of the first key holds the bytes of the marker of the second
    key, the scan for the second key stops there and recovers [x] where
    the value is [y].  The scan also recovers nothing for the integer
    values of the session request, which have no length prefix. *)
Lemma encode_then_scan_counterexample :
  bencode_encode colliding_request = "d1:a6:1:b1:x1:b1:ye"
  /\ In ("b", VStr "y") colliding_request
  /\ (forall k v, In (k, v) colliding_request -> isinstance v TStr = true)
  /\ extract_field (key_marker "b") (bencode_encode colliding_request)
     = Return (Some "x")
  /\ extract_field (key_marker "b") (bencode_encode colliding_request)
     <> Return (Some "y")
  /\ extract_field (key_marker "verbose") make_session_request = Return None.
Proof.
  split; [reflexivity |]. split; [right; left; reflexivity |].
  split; [| split; [reflexivity | split; [discriminate | reflexivity]]].
  intros k v [E | [E | []]]; inversion E; reflexivity.
Qed.

(** C3 (amended).  For a key whose value is a text of ASCII characters,
    with a length of at most 4300 digits, when the pattern of the key's
    marker matches nowhere in the encoded bytes before the key's own entry,
    scanning the encoded bytes for the marker recovers the bytes of the
    value.  This is always so for the first key of the request.  For a
    key whose value is an integer or a boolean, the pattern does not match
    at the key's own entry. *)
Theorem encode_then_scan :
  (forall (pre post : list (string * pyval)) (k text : string),
      Py.is_ascii text = true ->
      (Py.blen (Py.str_N (Py.len text)) <= int_max_str_digits)%N ->
      no_match_within (key_marker k) ("d" ++ bencode_encode_items pre)
        (key_marker k ++ bencode_encode_value (VStr text)
           ++ bencode_encode_items post ++ "e") = true ->
      extract_field (key_marker k) (bencode_encode (pre ++ (k, VStr text) :: post))
      = Return (Some text))
  /\ (forall (post : list (string * pyval)) (k text : string),
         Py.is_ascii text = true ->
         (Py.blen (Py.str_N (Py.len text)) <= int_max_str_digits)%N ->
         extract_field (key_marker k) (bencode_encode ((k, VStr text) :: post))
         = Return (Some text))
  /\ (forall (k rest : string) (v : pyval),
         isinstance v TInt = true ->
         match_field_at (key_marker k) (key_marker k ++ bencode_encode_value v ++ rest)
         = None).
Proof.
  assert (Hgen : forall pre post k text,
             Py.is_ascii text = true ->
             (Py.blen (Py.str_N (Py.len text)) <= int_max_str_digits)%N ->
             no_match_within (key_marker k) ("d" ++ bencode_encode_items pre)
               (key_marker k ++ bencode_encode_value (VStr text)
                  ++ bencode_encode_items post ++ "e") = true ->
             extract_field (key_marker k) (bencode_encode (pre ++ (k, VStr text) :: post))
             = Return (Some text)).
  { intros pre post k text Hascii Hdigits Hfree.
    assert (E : bencode_encode (pre ++ (k, VStr text) :: post)
                = ("d" ++ bencode_encode_items pre)
                    ++ (key_marker k ++ bencode_encode_value (VStr text)
                          ++ bencode_encode_items post ++ "e")).
    { unfold bencode_encode. rewrite bencode_encode_items_app.
      cbn [bencode_encode_items]. now rewrite !append_assoc. }
    unfold extract_field. rewrite E, (search_field_skip _ _ _ Hfree).
    rewrite bencode_encode_value_str, !append_assoc.
    rewrite (search_field_here _ _ _ (match_field_at_entry _ _ _ _)).
    unfold int_of_bytes.
    destruct (N.ltb_spec int_max_str_digits (Py.blen (Py.str_N (Py.len text))));
      [lia |].
    rewrite int_of_str_N, (len_ascii _ Hascii), take_blen.
    now rewrite (decode_ascii _ Hascii). }
  split; [exact Hgen |]. split.
  - intros post k text Hascii Hdigits.
    apply (Hgen [] post k text Hascii Hdigits).
    apply no_match_at_opening.
  - intros k rest v Hv. unfold match_field_at. rewrite strip_prefix_append.
    destruct v as [t | z | b | l | m x | | d]; try discriminate Hv.
    + reflexivity.
    + destruct b; reflexivity.
Qed.

Lemma encode_then_scan_witness :
  extract_field (key_marker "code") (make_eval_request "(+ 1 1)" "s1")
  = Return (Some "(+ 1 1)")
  /\ extract_field (key_marker "op") (make_eval_request "(+ 1 1)" "s1")
     = Return (Some "eval")
  /\ match_field_at (key_marker "verbose")
       (key_marker "verbose" ++ bencode_encode_value (VInt 1) ++ "6:prompti1ee")
     = None.
Proof.
  split; [| split].
  - exact (proj1 encode_then_scan [("op", VStr "eval")] [("session", VStr "s1")]
             "code" "(+ 1 1)" eq_refl ltac:(vm_compute; discriminate) eq_refl).
  - exact (proj1 (proj2 encode_then_scan)
             [("code", VStr "(+ 1 1)"); ("session", VStr "s1")]
             "op" "eval" eq_refl ltac:(vm_compute; discriminate)).
  - exact (proj2 (proj2 encode_then_scan) "verbose" "6:prompti1ee" (VInt 1) eq_refl).
Defined.

(* ===================================================================== *)
(** * Part III.  Further properties of the codec and of the transport     *)
(* ===================================================================== *)

(** ** The scanner on a growing buffer *)

Section Growth.

Lemma length_append (a b : string) :
  String.length (a ++ b) = String.length a + String.length b.
Proof. induction a as [|x a IH]; simpl; [reflexivity | now rewrite IH]. Qed.

(** Two ways of cutting the same text: one cut is inside the other part. *)
Lemma append_eq_append (a b c d : string) :
  a ++ b = c ++ d ->
  (exists e, c = a ++ e /\ b = e ++ d) \/ (exists e, a = c ++ e /\ d = e ++ b).
Proof.
  revert c. induction a as [|x a IH]; intros c H.
  - left. now exists c.
  - destruct c as [|y c].
    + right. now exists (String x a).
    + simpl in H. inversion H; subst.
      destruct (IH c H2) as [(e & -> & ->) | (e & -> & ->)].
      * left. now exists e.
      * right. now exists e.
Qed.

Lemma all_digits_app (a b : string) :
  all_digits (a ++ b) = all_digits a && all_digits b.
Proof.
  induction a as [|x a IH]; simpl; [reflexivity |].
  now rewrite IH, andb_assoc.
Qed.

Lemma strip_prefix_grow (p s r more : string) :
  Py.strip_prefix p s = Some r -> Py.strip_prefix p (s ++ more) = Some (r ++ more).
Proof.
  intros H. apply strip_prefix_sound in H. subst s.
  now rewrite append_assoc, strip_prefix_append.
Qed.

(** What the run of digits at the head of a text is. *)
Lemma span_digits_sound (s ds rest : string) :
  span_digits s = (ds, rest) ->
  s = ds ++ rest /\ all_digits ds = true.
Proof.
  revert ds rest. induction s as [|c r IH]; simpl; intros ds rest H.
  - inversion H; subst. now split.
  - destruct (Py.is_digit c) eqn:Hc.
    + destruct (span_digits r) as [ds' rest'] eqn:E. inversion H; subst.
      destruct (IH _ _ eq_refl) as [-> Hd]. simpl. now rewrite Hc, Hd.
    + inversion H; subst. now split.
Qed.

(** A run of digits ends where a colon stands. *)
Lemma span_digits_colon (ds rest : string) :
  all_digits ds = true ->
  span_digits (ds ++ String ":" rest) = (ds, String ":" rest).
Proof. apply span_digits_prefix. Qed.

(** A match at the head of a text: the marker, digits, a colon. *)
Lemma match_field_at_sound (marker s rest digits : string) :
  match_field_at marker s = Some (digits, rest) ->
  exists d ds,
    s = marker ++ String d ds ++ String ":" rest
    /\ all_digits (String d ds) = true
    /\ digits = String d ds.
Proof.
  unfold match_field_at. intros H.
  destruct (Py.strip_prefix marker s) as [after |] eqn:Hp; [| discriminate].
  apply strip_prefix_sound in Hp.
  destruct (span_digits after) as [ds rest'] eqn:Hd.
  apply span_digits_sound in Hd. destruct Hd as [-> Hall].
  destruct ds as [|d ds]; [discriminate |].
  destruct rest' as [|c payload]; [discriminate |].
  destruct (Ascii.eqb_spec c ":") as [->|Hc].
  - inversion H; subst. now exists d, ds.
  - exfalso. revert H.
    destruct c as [[] [] [] [] [] [] [] []]; try discriminate; now contradiction Hc.
Qed.

Lemma match_field_at_complete (marker rest : string) (d : ascii) (ds : string) :
  all_digits (String d ds) = true ->
  match_field_at marker (marker ++ String d ds ++ String ":" rest)
  = Some (String d ds, rest).
Proof.
  intros H. unfold match_field_at.
  now rewrite strip_prefix_append, (span_digits_colon _ _ H).
Qed.

(** A match stays where it is when bytes are added at the end. *)
Lemma match_field_at_grow (marker s rest more digits : string) :
  match_field_at marker s = Some (digits, rest) ->
  match_field_at marker (s ++ more) = Some (digits, rest ++ more).
Proof.
  intros H. apply match_field_at_sound in H.
  destruct H as (d & ds & -> & Hall & ->).
  rewrite !append_assoc.
  change (String ":" rest ++ more) with (String ":" (rest ++ more)).
  now apply match_field_at_complete.
Qed.

End Growth.

Section Leftmost.

Lemma search_field_sound (marker s rest digits : string) :
  search_field marker s = Some (digits, rest) ->
  exists pre d ds,
    s = pre ++ marker ++ String d ds ++ String ":" rest
    /\ all_digits (String d ds) = true
    /\ digits = String d ds.
Proof.
  induction s as [|c t IH]; cbn [search_field]; intros H.
  - destruct (match_field_at marker EmptyString) as [m |] eqn:E; [| discriminate].
    inversion H; subst. apply match_field_at_sound in E.
    destruct E as (d & ds & E & Hall & Hn). now exists EmptyString, d, ds.
  - destruct (match_field_at marker (String c t)) as [m |] eqn:E.
    + inversion H; subst. apply match_field_at_sound in E.
      destruct E as (d & ds & E & Hall & Hn). now exists EmptyString, d, ds.
    + destruct (IH H) as (pre & d & ds & -> & Hall & Hn).
      now exists (String c pre), d, ds.
Qed.

(** A text that holds a whole match after its first byte cannot be the
    beginning of a match that starts at its first byte. *)
Lemma not_a_beginning (marker pre rest e : string) (c d d' : ascii) (ds ds' : string) :
  all_digits (String d' ds') = true ->
  marker ++ String d' ds'
  = String c (pre ++ marker ++ String d ds ++ String ":" rest) ++ e ->
  False.
Proof.
  intros Hall H.
  assert (H' : marker ++ String d' ds'
               = (String c pre ++ marker ++ String d ds) ++ String ":" (rest ++ e)).
  { rewrite H. simpl. rewrite !append_assoc. simpl. now rewrite !append_assoc. }
  apply append_eq_append in H'. destruct H' as [(f & Hf & Hd) | (f & Hf & _)].
  - rewrite Hd, all_digits_app in Hall.
    apply andb_true_iff in Hall. destruct Hall as [_ Hall]. discriminate Hall.
  - apply (f_equal String.length) in Hf.
    rewrite !length_append in Hf. simpl in Hf. rewrite ?length_append in Hf.
    simpl in Hf. lia.
Qed.

(** Bytes added at the end cannot make the pattern match at a place
    before a match that is already there. *)
Lemma no_earlier_match (marker t rest more digits : string) (c : ascii) :
  match_field_at marker (String c t) = None ->
  search_field marker t = Some (digits, rest) ->
  match_field_at marker (String c t ++ more) = None.
Proof.
  intros Hnone Hlater.
  destruct (match_field_at marker (String c t ++ more)) as [[n' rest'] |] eqn:E;
    [exfalso | reflexivity].
  apply match_field_at_sound in E. destruct E as (d' & ds' & E & Hall & _).
  apply search_field_sound in Hlater.
  destruct Hlater as (pre & d & ds & Ht & _ & _).
  assert (E' : String c t ++ more = (marker ++ String d' ds') ++ String ":" rest').
  { rewrite E. now rewrite append_assoc. }
  apply append_eq_append in E'. destruct E' as [(e & He & _) | (e & He & Hmore)].
  - rewrite Ht in He. exact (not_a_beginning _ _ _ _ _ _ _ _ _ Hall He).
  - destruct e as [|x e].
    + rewrite append_nil_r in He. rewrite Ht in He.
      apply (not_a_beginning marker pre rest EmptyString c d d' ds ds' Hall).
      now rewrite append_nil_r.
    + simpl in Hmore. inversion Hmore; subst x.
      rewrite He, append_assoc in Hnone.
      now rewrite (match_field_at_complete _ _ _ _ Hall) in Hnone.
Qed.

(** The leftmost match does not move when bytes are added at the end. *)
Lemma search_field_grow (marker s rest more digits : string) :
  search_field marker s = Some (digits, rest) ->
  search_field marker (s ++ more) = Some (digits, rest ++ more).
Proof.
  induction s as [|c t IH]; intros H.
  - cbn [search_field] in H.
    destruct (match_field_at marker EmptyString) as [m |] eqn:E; [| discriminate].
    inversion H; subst.
    apply search_field_here. now apply match_field_at_grow.
  - cbn [search_field] in H.
    destruct (match_field_at marker (String c t)) as [m |] eqn:E.
    + inversion H; subst. apply search_field_here. now apply match_field_at_grow.
    + change (String c t ++ more) with (String c (t ++ more)).
      cbn [search_field].
      change (String c (t ++ more)) with (String c t ++ more).
      rewrite (no_earlier_match _ _ _ more _ _ E H).
      now apply IH.
Qed.

Lemma blen_append (a b : string) : Py.blen (a ++ b) = (Py.blen a + Py.blen b)%N.
Proof. induction a as [|x a IH]; simpl; [reflexivity | rewrite IH; lia]. Qed.

(** A slice that ends inside the data does not see what follows. *)
Lemma take_grow (n : N) (s more : string) :
  (n <= Py.blen s)%N -> Py.take n (s ++ more) = Py.take n s.
Proof.
  revert n. induction s as [|c r IH]; simpl; intros n H.
  - assert (n = 0%N) by lia. subst. now destruct more.
  - destruct (N.eqb_spec n 0); [reflexivity |].
    f_equal. apply IH. lia.
Qed.

End Leftmost.

Section Decoding.

Lemma dot_star_then_grow (lit s more : string) :
  dot_star_then lit s = true -> dot_star_then lit (s ++ more) = true.
Proof.
  induction s as [|c r IH]; cbn [dot_star_then]; intros H.
  - destruct (Py.strip_prefix lit EmptyString) as [x |] eqn:E; [| discriminate].
    pose proof (strip_prefix_grow _ _ _ more E) as G. simpl in G. simpl.
    destruct more; cbn [dot_star_then]; now rewrite G.
  - change (String c r ++ more) with (String c (r ++ more)). cbn [dot_star_then].
    change (String c (r ++ more)) with (String c r ++ more).
    destruct (Py.strip_prefix lit (String c r)) as [x |] eqn:E.
    + now rewrite (strip_prefix_grow _ _ _ more E).
    + destruct (Py.strip_prefix lit (String c r ++ more)); [reflexivity |].
      destruct (Ascii.eqb c Py.LF); [discriminate | now apply IH].
Qed.

Lemma search_status_done_grow (data more : string) :
  search_status_done data = true -> search_status_done (data ++ more) = true.
Proof.
  induction data as [|c r IH]; cbn [search_status_done]; intros H.
  - simpl in H. discriminate H.
  - change (String c r ++ more) with (String c (r ++ more)). cbn [search_status_done].
    change (String c (r ++ more)) with (String c r ++ more).
    destruct (Py.strip_prefix "6:status" (String c r)) as [after |] eqn:E.
    + rewrite (strip_prefix_grow _ _ _ more E).
      destruct (dot_star_then "4:done" after) eqn:D.
      * now rewrite (dot_star_then_grow _ _ more D).
      * destruct (dot_star_then "4:done" (after ++ more)); [reflexivity | now apply IH].
    + destruct (Py.strip_prefix "6:status" (String c r ++ more)) as [after' |].
      * destruct (dot_star_then "4:done" after'); [reflexivity | now apply IH].
      * now apply IH.
Qed.

(** A slice is the head of the data, as long as asked or as long as the
    data. *)
Lemma take_split (n : N) (s : string) :
  exists tail,
    s = Py.take n s ++ tail
    /\ (Py.blen (Py.take n s) <= n)%N
    /\ (tail = EmptyString \/ Py.blen (Py.take n s) = n).
Proof.
  revert n. induction s as [|c r IH]; intros n; simpl.
  - exists EmptyString. repeat split; [lia | now left].
  - destruct (N.eqb_spec n 0) as [-> | Hn].
    + exists (String c r). repeat split; [simpl; lia | now right].
    + destruct (IH (N.pred n)) as (tail & E & Hle & Hor).
      exists tail. simpl. rewrite <- E. repeat split; [lia |].
      destruct Hor as [-> | Hor]; [now left | right; lia].
Qed.

Lemma is_ascii_app (a b : string) :
  Py.is_ascii (a ++ b) = Py.is_ascii a && Py.is_ascii b.
Proof.
  induction a as [|x a IH]; simpl; [reflexivity |].
  now rewrite IH, andb_assoc.
Qed.

Lemma is_ascii_take (n : N) (s : string) :
  Py.is_ascii s = true -> Py.is_ascii (Py.take n s) = true.
Proof.
  intros H. destruct (take_split n s) as (tail & E & _).
  rewrite E, is_ascii_app in H. now apply andb_true_iff in H.
Qed.

(** On ASCII bytes an extraction returns, unless the group of the match
    is longer than the limit of the integer conversion. *)
Lemma extract_field_ascii (marker data : string) :
  Py.is_ascii data = true ->
  (exists r, extract_field marker data = Return r)
  \/ (exists digits,
        extract_field marker data = Raise (ValueError digits)
        /\ (int_max_str_digits < Py.blen digits)%N
        /\ (Py.blen digits <= Py.blen data)%N).
Proof.
  intros H. unfold extract_field.
  destruct (search_field marker data) as [[digits rest] |] eqn:E;
    [| left; now eexists].
  apply search_field_sound in E. destruct E as (pre & d & ds & E & _ & Hd).
  unfold int_of_bytes.
  destruct (N.ltb_spec int_max_str_digits (Py.blen digits)) as [Hlong | Hshort].
  - right. exists digits. repeat split; auto.
    rewrite E, <- Hd, !blen_append. lia.
  - left.
    assert (Hrest : Py.is_ascii rest = true).
    { rewrite E in H.
      change (String d ds ++ String ":" rest) with (String d ds ++ ":" ++ rest) in H.
      rewrite !is_ascii_app in H.
      repeat (apply andb_true_iff in H; destruct H as [_ H]). exact H. }
    rewrite (decode_ascii _ (is_ascii_take _ _ Hrest)). now eexists.
Qed.

End Decoding.

(** X1.  Once the marker of a field is in the buffer, more bytes do not
    move it: the scan finds the same match, with the same announced
    length, and the payload followed by the new bytes.  When the buffer
    already holds the announced number of bytes, the extracted field is
    the same after any further chunk. *)
Theorem field_stable_under_growth :
  forall (marker data more rest digits : string),
    search_field marker data = Some (digits, rest) ->
    search_field marker (data ++ more) = Some (digits, rest ++ more)
    /\ ((Py.decimal_value digits <= Py.blen rest)%N ->
        extract_field marker (data ++ more) = extract_field marker data).
Proof.
  intros marker data more rest digits H.
  pose proof (search_field_grow _ _ _ more _ H) as G.
  split; [exact G |].
  intros Hn. unfold extract_field. rewrite G, H.
  unfold int_of_bytes.
  destruct (int_max_str_digits <? Py.blen digits)%N; [reflexivity |].
  now rewrite (take_grow _ _ more Hn).
Qed.

Lemma field_stable_under_growth_witness :
  extract_field "5:value" ("d5:value1:2" ++ "6:statusl4:doneee")
  = extract_field "5:value" "d5:value1:2".
Proof.
  apply (proj2 (field_stable_under_growth "5:value" "d5:value1:2"
                  "6:statusl4:doneee" "2" "1" eq_refl)).
  vm_compute. discriminate.
Defined.

(** X2.  The completion test only goes from false to true: when the
    buffer matches [6:status.*4:done], so does the buffer with any bytes
    added, and the decoded mapping keeps its [status]. *)
Theorem done_marker_persists :
  forall (data more : string) (parsed parsed' : fields),
    (search_status_done data = true -> search_status_done (data ++ more) = true)
    /\ (parse_bencode_response data = Return parsed ->
        parse_bencode_response (data ++ more) = Return parsed' ->
        status_done parsed = true -> status_done parsed' = true).
Proof.
  intros data more parsed parsed'. split; [apply search_status_done_grow |].
  unfold parse_bencode_response. intros H H'.
  repeat match type of H with
         | match ?x with _ => _ end = _ => destruct x; [| discriminate H]
         end.
  repeat match type of H' with
         | match ?x with _ => _ end = _ => destruct x; [| discriminate H']
         end.
  inversion H; inversion H'; subst. unfold status_done. cbn [status].
  destruct (search_status_done data) eqn:D; [| discriminate].
  now rewrite (search_status_done_grow _ more D).
Qed.

Lemma done_marker_persists_witness :
  search_status_done ("d6:statusl4:doneee" ++ "d5:value1:2e") = true.
Proof.
  exact (proj1 (done_marker_persists "d6:statusl4:doneee" "d5:value1:2e"
                  value_and_error value_and_error) eq_refl).
Defined.

(** X3.  A field that the decoder returns was read in the buffer: the
    buffer holds the marker, a run of digits, a colon and then the text;
    the text is never longer than the announced length, it is shorter
    only when the buffer ends with it, and it is well-formed UTF-8. *)
Theorem extracted_text_is_in_buffer :
  forall (marker data text : string),
    extract_field marker data = Return (Some text) ->
    exists (pre digits tail : string),
      data = pre ++ marker ++ digits ++ ":" ++ text ++ tail
      /\ all_digits digits = true
      /\ digits <> EmptyString
      /\ (Py.blen digits <= int_max_str_digits)%N
      /\ (Py.blen text <= Py.decimal_value digits)%N
      /\ (tail = EmptyString \/ Py.blen text = Py.decimal_value digits)
      /\ Py.utf8_valid text = true.
Proof.
  intros marker data text H. unfold extract_field in H.
  destruct (search_field marker data) as [[digits rest] |] eqn:E; [| discriminate].
  apply search_field_sound in E. destruct E as (pre & d & ds & E & Hall & Hd).
  unfold int_of_bytes in H.
  destruct (N.ltb_spec int_max_str_digits (Py.blen digits)) as [| Hshort];
    [discriminate |].
  unfold decode in H.
  destruct (Py.utf8_valid (Py.take (Py.decimal_value digits) rest)) eqn:V;
    [| discriminate].
  inversion H; subst text. clear H.
  destruct (take_split (Py.decimal_value digits) rest) as (tail & Er & Hle & Hor).
  exists pre, digits, tail. subst digits.
  repeat split; auto; [| discriminate].
  rewrite E. rewrite Er at 1. reflexivity.
Qed.

Lemma extracted_text_is_in_buffer_witness :
  exists (pre digits tail : string),
    "d11:new-session3:abc5:value10:4e"
    = pre ++ "5:value" ++ digits ++ ":" ++ "4e" ++ tail
    /\ all_digits digits = true
    /\ digits <> EmptyString
    /\ (Py.blen digits <= int_max_str_digits)%N
    /\ (Py.blen "4e" <= Py.decimal_value digits)%N
    /\ (tail = EmptyString \/ Py.blen "4e" = Py.decimal_value digits)
    /\ Py.utf8_valid "4e" = true.
Proof.
  exact (extracted_text_is_in_buffer "5:value" "d11:new-session3:abc5:value10:4e"
           "4e" eq_refl).
Defined.

(** X4.  On a buffer of ASCII characters the decoder never fails on the
    text: it returns a mapping, or it raises [ValueError] for a length of
    more than 4300 digits.  A buffer of at most 4300 bytes, which every
    reply of a single [recv(4096)] is, always decodes to a mapping. *)
Theorem ascii_buffer_decodes_within_limit :
  forall data : string,
    Py.is_ascii data = true ->
    ((exists parsed, parse_bencode_response data = Return parsed)
     \/ (exists digits,
           parse_bencode_response data = Raise (ValueError digits)
           /\ (int_max_str_digits < Py.blen digits)%N))
    /\ ((Py.blen data <= int_max_str_digits)%N ->
        exists parsed, parse_bencode_response data = Return parsed).
Proof.
  intros data H.
  assert (Hall : (exists parsed, parse_bencode_response data = Return parsed)
                 \/ (exists digits,
                       parse_bencode_response data = Raise (ValueError digits)
                       /\ (int_max_str_digits < Py.blen digits)%N
                       /\ (Py.blen digits <= Py.blen data)%N)).
  { unfold parse_bencode_response.
    destruct (extract_field_ascii "11:new-session" data H)
      as [(r1 & ->) | (ds & -> & Hd)]; [| right; now exists ds].
    destruct (extract_field_ascii "5:value" data H)
      as [(r2 & ->) | (ds & -> & Hd)]; [| right; now exists ds].
    destruct (extract_field_ascii "3:err" data H)
      as [(r3 & ->) | (ds & -> & Hd)]; [| right; now exists ds].
    destruct (extract_field_ascii "7:root-ex" data H)
      as [(r4 & ->) | (ds & -> & Hd)]; [| right; now exists ds].
    left. now eexists. }
  split.
  - destruct Hall as [Hok | (ds & Hr & Hlong & _)]; [now left |].
    right. now exists ds.
  - intros Hsmall. destruct Hall as [Hok | (ds & _ & Hlong & Hin)]; [exact Hok | lia].
Qed.

Lemma ascii_buffer_decodes_within_limit_witness :
  exists parsed, parse_bencode_response "d5:value99:cut he" = Return parsed.
Proof.
  apply (proj2 (ascii_buffer_decodes_within_limit "d5:value99:cut he" eq_refl)).
  vm_compute. discriminate.
Defined.

(** ** The read loop and its buffer *)

Section Buffer.

Variable w : world.

(** What a run of the loop does: it only reads, and what it returns is
    the buffer it was entered with followed by the chunks it read; a
    buffer that decoded when the loop was entered decodes when it is
    left. *)
Lemma read_loop_shape (max_reads reads : nat) (result : string) (s s' : state)
    (o : outcome string) :
  read_loop w max_reads reads result s = (o, s') ->
  exists k,
    k <= max_reads - reads
    /\ trace s' = (trace s ++ repeat (EvRecv 4096) k)%list
    /\ sock s' = sock s
    /\ forall buf,
         o = Return buf ->
         buf = result ++ received w (count_recv (trace s)) k
         /\ ((exists parsed, parse_bencode_response result = Return parsed) ->
             exists parsed, parse_bencode_response buf = Return parsed).
Proof.
  remember (max_reads - reads) as n eqn:En.
  revert reads result s En.
  induction n as [|n IH]; intros reads result s En H;
    rewrite read_loop_eq in H;
    destruct (lt_dec reads max_reads) as [Hlt | Hge]; try lia.
  - inversion H; subst. exists 0. simpl. rewrite app_nil_r.
    repeat split; auto; inversion H0; subst; [now rewrite append_nil_r | auto].
  - unfold sock_recv in H.
    destruct (recv_answer w (count_recv (trace s))) as [data | e] eqn:Hrecv.
    + destruct (String.eqb_spec data EmptyString) as [-> | Hdata].
      * inversion H; subst. exists 1. simpl. rewrite Hrecv.
        repeat split; auto; [lia | | ]; inversion H0; subst;
          [now rewrite append_nil_r | auto].
      * destruct (parse_bencode_response (result ++ data)) as [parsed | e] eqn:Hparse.
        -- destruct (status_done parsed).
           ++ inversion H; subst. exists 1. simpl. rewrite Hrecv.
              repeat split; auto; [lia | | ]; inversion H0; subst;
                [now rewrite append_nil_r | eauto].
           ++ assert (En' : n = max_reads - S reads) by lia.
              destruct (IH (S reads) (result ++ data) _ En' H)
                as (k & Hk & Ht & Hs & Hbuf).
              exists (S k). simpl in Ht, Hs. simpl. rewrite Hrecv.
              unfold log in Hbuf. cbn [trace] in Hbuf.
              rewrite count_recv_app in Hbuf. simpl in Hbuf.
              rewrite Nat.add_1_r in Hbuf.
              repeat split; auto.
              ** lia.
              ** now rewrite Ht, <- app_assoc.
              ** destruct (Hbuf _ H0) as [-> _]. now rewrite append_assoc.
              ** intros _. destruct (Hbuf _ H0) as [_ Hp]. apply Hp. eauto.
        -- inversion H; subst. exists 1. simpl.
           repeat split; auto; [lia | discriminate | discriminate].
    + inversion H; subst. exists 1. simpl.
      repeat split; auto; [lia | discriminate | discriminate].
Qed.

End Buffer.

(** X5.  The buffer only grows, and by what was read: when the loop
    returns, its buffer is the buffer it was entered with followed by the
    chunks of the reads it made, in their order; the loop makes no other
    call than these reads. *)
Theorem buffer_is_what_was_read :
  forall (w : world) (max_reads reads : nat) (result buf : string) (s s' : state),
    read_loop w max_reads reads result s = (Return buf, s') ->
    exists k,
      k <= max_reads - reads
      /\ trace s' = (trace s ++ repeat (EvRecv 4096) k)%list
      /\ buf = result ++ received w (count_recv (trace s)) k.
Proof.
  intros w max_reads reads result buf s s' H.
  destruct (read_loop_shape w _ _ _ _ _ _ H) as (k & Hk & Ht & _ & Hbuf).
  exists k. repeat split; auto. now destruct (Hbuf buf eq_refl).
Qed.

Lemma buffer_is_what_was_read_witness :
  exists k,
    k <= 100 - 0
    /\ [EvRecv 4096; EvRecv 4096; EvRecv 4096]
       = ([EvRecv 4096] ++ repeat (EvRecv 4096) k)%list
    /\ "d5:value2:426:statusl4:doneee"
       = EmptyString ++ received chunked_world 1 k.
Proof.
  exact (buffer_is_what_was_read chunked_world 100 0 EmptyString
           "d5:value2:426:statusl4:doneee"
           {| trace := [EvRecv 4096%N]; sock := true |}
           {| trace := [EvRecv 4096%N; EvRecv 4096%N; EvRecv 4096%N]; sock := true |}
           eq_refl).
Defined.

(** X6.  The decoding after the loop cannot fail: a loop entered with an
    empty buffer returns a buffer that decodes, since every buffer that
    the loop keeps was decoded in the loop. *)
Theorem final_decode_succeeds :
  forall (w : world) (max_reads reads : nat) (buf : string) (s s' : state),
    read_loop w max_reads reads EmptyString s = (Return buf, s') ->
    exists parsed, parse_bencode_response buf = Return parsed.
Proof.
  intros w max_reads reads buf s s' H.
  destruct (read_loop_shape w _ _ _ _ _ _ H) as (k & _ & _ & _ & Hbuf).
  destruct (Hbuf buf eq_refl) as [_ Hp]. apply Hp.
  eexists. reflexivity.
Qed.

Lemma final_decode_succeeds_witness :
  exists parsed, parse_bencode_response "d5:value2:426:statusl4:doneee" = Return parsed.
Proof.
  exact (final_decode_succeeds chunked_world 100 0 "d5:value2:426:statusl4:doneee"
           {| trace := [EvRecv 4096%N]; sock := true |}
           {| trace := [EvRecv 4096%N; EvRecv 4096%N; EvRecv 4096%N]; sock := true |}
           eq_refl).
Defined.

(** ** The order of the calls *)

Section Protocol.

Variable w : world.
Variables (code host : string) (port timeout : Z).

Lemma call_inv (ev : event) (answer : option pyexn) (s s' : state) (o : outcome unit) :
  call ev answer s = (o, s') -> s' = log ev s.
Proof. rewrite call_eq. now inversion 1. Qed.

(** None of the calls before the evaluate request is the evaluate
    request. *)
Ltac before_evaluate :=
  repeat split;
  [ discriminate
  | lia
  | let X := fresh "X" in
    intros X; simpl in X;
    repeat (destruct X as [X | X]; [discriminate X |]); contradiction ].

(** The calls of the [try] block are an initial part of the calls of the
    protocol, and the session of the evaluate request is the one that the
    server gave. *)
Lemma body_protocol (s s1 : state) (o : outcome string) :
  send_to_nrepl_body w code host port timeout s = (o, s1) ->
  exists made session_id k rest,
    trace s1 = (trace s ++ made)%list
    /\ protocol_calls host port timeout code session_id k = (made ++ rest)%list
    /\ made <> []
    /\ k <= 100
    /\ (In (EvSendAll (make_eval_request code session_id)) made ->
        exists session_resp session_data,
          recv_answer w (count_recv (trace s)) = Return session_resp
          /\ parse_bencode_response session_resp = Return session_data
          /\ new_session session_data = Some session_id
          /\ session_id <> EmptyString).
Proof.
  unfold send_to_nrepl_body. intros H.
  (* sock = socket.socket(...) *)
  apply bind_inv in H. destruct H as [(e & H & ->) | (u & s2 & H & H2)].
  { exists [EvSocket], EmptyString, 0. eexists.
    unfold socket_socket in H. destruct (socket_raises w); inversion H; subst.
    before_evaluate. }
  assert (E2 : trace s2 = (trace s ++ [EvSocket])%list).
  { unfold socket_socket in H. destruct (socket_raises w); inversion H; now subst. }
  clear H.
  (* sock.settimeout(timeout) *)
  apply bind_inv in H2. destruct H2 as [(e & H & ->) | (u3 & s3 & H & H3)];
    apply call_inv in H; subst; unfold log in *; cbn [trace] in *.
  { exists [EvSocket; EvSetTimeout timeout], EmptyString, 0. eexists.
    rewrite E2, <- app_assoc. before_evaluate. }
  (* sock.connect((host, port)) *)
  apply bind_inv in H3. destruct H3 as [(e & H & ->) | (u4 & s4 & H & H4)];
    apply call_inv in H; subst; unfold log in *; cbn [trace] in *.
  { exists [EvSocket; EvSetTimeout timeout; EvConnect host port], EmptyString, 0.
    eexists. rewrite E2, <- !app_assoc. before_evaluate. }
  (* sock.sendall(make_session_request()) *)
  apply bind_inv in H4. destruct H4 as [(e & H & ->) | (u5 & s5 & H & H5)];
    apply call_inv in H; subst; unfold log in *; cbn [trace] in *.
  { exists [EvSocket; EvSetTimeout timeout; EvConnect host port;
            EvSendAll make_session_request], EmptyString, 0.
    eexists. rewrite E2, <- !app_assoc. before_evaluate. }
  (* session_resp = bytes(sock.recv(4096)) *)
  assert (Hcount : count_recv
                     (((trace s2 ++ [EvSetTimeout timeout]) ++ [EvConnect host port])
                        ++ [EvSendAll make_session_request])
                   = count_recv (trace s)).
  { rewrite E2, !count_recv_app. simpl. lia. }
  apply bind_inv in H5. destruct H5 as [(e & H & ->) | (resp & s6 & H & H6)];
    unfold sock_recv in H; cbn [trace] in H; rewrite Hcount in H;
    inversion H as [[Hresp Hs6]]; clear H; subst; unfold log in *; cbn [trace] in *.
  { exists [EvSocket; EvSetTimeout timeout; EvConnect host port;
            EvSendAll make_session_request; EvRecv 4096%N], EmptyString, 0.
    eexists. rewrite E2, <- !app_assoc. before_evaluate. }
  (* session_data = parse_bencode_response(session_resp) *)
  apply bind_inv in H6. destruct H6 as [(e & H & ->) | (data & s7 & H & H7)];
    unfold lift in H; inversion H as [[Hparse Hs7]]; clear H; subst; cbn [trace] in *.
  { exists [EvSocket; EvSetTimeout timeout; EvConnect host port;
            EvSendAll make_session_request; EvRecv 4096%N], EmptyString, 0.
    eexists. rewrite E2, <- !app_assoc. before_evaluate. }
  (* if not session_id *)
  destruct (new_session data) as [sid |] eqn:Hsid.
  2: { unfold ret in H7. inversion H7; subst. cbn [trace].
       exists [EvSocket; EvSetTimeout timeout; EvConnect host port;
               EvSendAll make_session_request; EvRecv 4096%N], EmptyString, 0.
       eexists. rewrite E2, <- !app_assoc. before_evaluate. }
  destruct (String.eqb_spec sid EmptyString) as [Hempty | Hfilled].
  { unfold ret in H7. inversion H7; subst s1. cbn [trace].
    exists [EvSocket; EvSetTimeout timeout; EvConnect host port;
            EvSendAll make_session_request; EvRecv 4096%N], EmptyString, 0.
    eexists. rewrite E2, <- !app_assoc. before_evaluate. }
  assert (Hfacts : exists session_resp session_data,
             recv_answer w (count_recv (trace s)) = Return session_resp
             /\ parse_bencode_response session_resp = Return session_data
             /\ new_session session_data = Some sid
             /\ sid <> EmptyString).
  { exists resp, data. repeat split; auto. }
  (* sock.sendall(make_eval_request(code, session_id)) *)
  apply bind_inv in H7. destruct H7 as [(e & H & ->) | (u8 & s8 & H & H8)];
    unfold sock_sendall in H; apply call_inv in H; subst; unfold log in *;
    cbn [trace] in *.
  { exists (protocol_calls host port timeout code sid 0), sid, 0, [].
    rewrite E2, <- !app_assoc, app_nil_r.
    repeat split; [discriminate | lia | intros _; exact Hfacts]. }
  (* the read loop *)
  apply bind_inv in H8. destruct H8 as [(e & H & ->) | (buf & s9 & H & H9)].
  { destruct (read_loop_shape w _ _ _ _ _ _ H) as (k & Hk & Ht & _).
    exists (protocol_calls host port timeout code sid k), sid, k, [].
    rewrite Ht. cbn [trace]. rewrite E2, <- !app_assoc, app_nil_r.
    repeat split; [discriminate | lia | intros _; exact Hfacts]. }
  destruct (read_loop_shape w _ _ _ _ _ _ H) as (k & Hk & Ht & _).
  assert (Es1 : trace s1 = trace s9).
  { apply bind_inv in H9. destruct H9 as [(e & H' & _) | (p & s10 & H' & H10)];
      unfold lift in H'; inversion H'; subst; [reflexivity |].
    unfold ret in H10. now inversion H10. }
  exists (protocol_calls host port timeout code sid k), sid, k, [].
  rewrite Es1, Ht. cbn [trace]. rewrite E2, <- !app_assoc, app_nil_r.
  repeat split; [discriminate | lia | intros _; exact Hfacts].
Qed.

End Protocol.

Lemma protocol_calls_no_close (host : string) (port timeout : Z)
    (code session_id : string) (k : nat) :
  ~ In EvClose (protocol_calls host port timeout code session_id k).
Proof.
  unfold protocol_calls. rewrite in_app_iff. intros [X | X].
  - simpl in X. repeat (destruct X as [X | X]; [discriminate X |]). contradiction.
  - apply repeat_spec in X. discriminate X.
Qed.

(** X7.  The calls of the operation follow the protocol: they are an
    initial part of socket, settimeout, connect, session request, read,
    evaluate request, then at most 100 reads; after them comes the close,
    unless the socket could not be created.  When the evaluate request is
    sent, it is sent once, after the reply to the session request, and the
    session it names is the non-empty one decoded from that reply. *)
Theorem calls_follow_protocol :
  forall (w : world) (code host : string) (port timeout : Z) (s : state),
    exists (made : list event) (session_id : string) (k : nat) (rest : list event),
      trace (snd (send_to_nrepl w code host port timeout s))
      = (trace s ++ made
           ++ match socket_raises w with None => [EvClose] | Some _ => [] end)%list
      /\ protocol_calls host port timeout code session_id k = (made ++ rest)%list
      /\ made <> []
      /\ k <= 100
      /\ (In (EvSendAll (make_eval_request code session_id)) made ->
          exists session_resp session_data,
            recv_answer w (count_recv (trace s)) = Return session_resp
            /\ parse_bencode_response session_resp = Return session_data
            /\ new_session session_data = Some session_id
            /\ session_id <> EmptyString).
Proof.
  intros w code host port timeout s.
  destruct (send_to_nrepl_trace w code host port timeout s)
    as (r & evs & Hrun & Hnc & _ & _).
  pose proof Hrun as Hrun'. rewrite send_to_nrepl_eq in Hrun'.
  destruct (send_to_nrepl_body w code host port timeout (unbind_sock s))
    as [o s1] eqn:Hbody.
  destruct (body_protocol w code host port timeout _ _ _ Hbody)
    as (made & sid & k & rest & Ht & Hp & Hne & Hk & Hfacts).
  cbn [unbind_sock trace] in Ht, Hfacts.
  exists made, sid, k, rest. rewrite Hrun. cbn [snd trace].
  repeat split; auto.
  pose proof (f_equal snd Hrun') as Hstate. cbn [snd] in Hstate. clear Hrun'.
  assert (Hmade : ~ In EvClose made).
  { intros X. apply (protocol_calls_no_close host port timeout code sid k).
    rewrite Hp. apply in_app_iff. now left. }
  destruct (sock s1); apply (f_equal trace) in Hstate;
    unfold log in Hstate; cbn [trace] in Hstate; rewrite Ht in Hstate;
    rewrite <- ?app_assoc in Hstate; apply app_inv_head in Hstate;
    destruct (socket_raises w).
  - exfalso. apply Hnc. rewrite app_nil_r in Hstate. rewrite <- Hstate.
    apply in_app_iff. right. now left.
  - now rewrite Hstate.
  - rewrite !app_nil_r in *. now rewrite Hstate.
  - exfalso. apply Hmade. rewrite Hstate. apply in_app_iff. right. now left.
Qed.

Lemma calls_follow_protocol_witness :
  exists (made : list event) (session_id : string) (k : nat) (rest : list event),
    trace (snd (send_to_nrepl chunked_world "(* 2 2)" "127.0.0.1" 36915 30
                  initial_state))
    = ([] ++ made ++ [EvClose])%list
    /\ protocol_calls "127.0.0.1" 36915 30 "(* 2 2)" session_id k = (made ++ rest)%list
    /\ made <> []
    /\ k <= 100
    /\ (In (EvSendAll (make_eval_request "(* 2 2)" session_id)) made ->
        exists session_resp session_data,
          recv_answer chunked_world 0 = Return session_resp
          /\ parse_bencode_response session_resp = Return session_data
          /\ new_session session_data = Some session_id
          /\ session_id <> EmptyString).
Proof.
  exact (calls_follow_protocol chunked_world "(* 2 2)" "127.0.0.1" 36915%Z 30%Z
           initial_state).
Defined.

(** ** Edges of the exchange *)

(** X8.  An empty session id is no session: when the reply to the
    session request decodes with an empty [new-session], the operation
    returns the session error and closes, and the evaluate request is
    not sent. *)
Theorem empty_session_is_no_session :
  forall (w : world) (code host : string) (port timeout : Z) (s : state)
         (session_resp : string) (session_data : fields),
    socket_raises w = None ->
    settimeout_raises w = None ->
    connect_raises w = None ->
    sendall_raises w (count_sendall (trace s)) make_session_request = None ->
    recv_answer w (count_recv (trace s)) = Return session_resp ->
    parse_bencode_response session_resp = Return session_data ->
    new_session session_data = Some EmptyString ->
    send_to_nrepl w code host port timeout s
    = (Return "Error: Could not create nREPL session",
       {| trace := (trace s ++ [EvSocket; EvSetTimeout timeout; EvConnect host port;
                                EvSendAll make_session_request; EvRecv 4096;
                                EvClose])%list;
          sock := true |}).
Proof.
  intros w code host port timeout s resp data H1 H2 H3 H4 H5 H6 H7.
  rewrite send_to_nrepl_eq.
  rewrite (body_handshake w code host port timeout (unbind_sock s) (Return resp)
             H1 H2 H3 H4 H5).
  unfold bind at 1. unfold bind at 1. unfold lift. rewrite H6, H7.
  unfold ret, log. cbn [sock trace settle String.eqb]. now rewrite <- app_assoc.
Qed.

Lemma empty_session_is_no_session_witness :
  send_to_nrepl empty_session_world "(+ 1 1)" "127.0.0.1" 36915 30 initial_state
  = (Return "Error: Could not create nREPL session",
     {| trace := [EvSocket; EvSetTimeout 30; EvConnect "127.0.0.1" 36915;
                  EvSendAll make_session_request; EvRecv 4096; EvClose];
        sock := true |}).
Proof.
  exact (empty_session_is_no_session empty_session_world "(+ 1 1)" "127.0.0.1"
           36915%Z 30%Z initial_state "d11:new-session0:e"
           {| new_session := Some EmptyString; value := None; status := None;
              err := None; root_ex := None |}
           eq_refl eq_refl eq_refl eq_refl eq_refl eq_refl eq_refl).
Defined.

(** X9.  Every buffer the loop keeps has to decode: when the first chunk
    of the reply does not decode, because it ends inside a character, the
    operation gives up with the text of that fault after this one read,
    and the chunks that would complete the reply are never read. *)
Theorem undecodable_chunk_ends_exchange :
  forall (w : world) (code host : string) (port timeout : Z) (s : state)
         (session_resp session_id chunk : string) (session_data : fields)
         (e : pyexn),
    socket_raises w = None ->
    settimeout_raises w = None ->
    connect_raises w = None ->
    sendall_raises w (count_sendall (trace s)) make_session_request = None ->
    recv_answer w (count_recv (trace s)) = Return session_resp ->
    parse_bencode_response session_resp = Return session_data ->
    new_session session_data = Some session_id ->
    session_id <> EmptyString ->
    sendall_raises w (S (count_sendall (trace s))) (make_eval_request code session_id)
    = None ->
    recv_answer w (S (count_recv (trace s))) = Return chunk ->
    chunk <> EmptyString ->
    parse_bencode_response chunk = Raise e ->
    send_to_nrepl w code host port timeout s
    = (Return (fault_text w e),
       {| trace := (trace s ++ [EvSocket; EvSetTimeout timeout; EvConnect host port;
                                EvSendAll make_session_request; EvRecv 4096;
                                EvSendAll (make_eval_request code session_id);
                                EvRecv 4096; EvClose])%list;
          sock := true |}).
Proof.
  intros w code host port timeout s resp sid chunk data e
         H1 H2 H3 H4 H5 H6 H7 H8 H9 H10 H11 H12.
  rewrite send_to_nrepl_eq.
  rewrite (body_handshake w code host port timeout (unbind_sock s) (Return resp)
             H1 H2 H3 H4 H5).
  unfold bind at 1. unfold bind at 1. unfold lift. rewrite H6, H7.
  destruct (String.eqb_spec sid EmptyString) as [| _]; [contradiction |].
  unfold bind at 1. unfold sock_sendall. rewrite call_eq.
  cbn [trace unbind_sock]. rewrite count_sendall_app. cbn [count_sendall].
  rewrite Nat.add_1_r, H9.
  unfold bind at 1. rewrite read_loop_eq.
  destruct (lt_dec 0 100) as [_ | Hn]; [| exfalso; apply Hn; repeat constructor].
  unfold sock_recv, log. cbn [trace]. rewrite !count_recv_app. cbn [count_recv].
  rewrite Nat.add_0_r, Nat.add_1_r, H10.
  destruct (String.eqb_spec chunk EmptyString) as [| _]; [contradiction |].
  cbn [append]. rewrite H12. cbn [sock trace settle].
  now rewrite <- !app_assoc.
Qed.

Lemma undecodable_chunk_ends_exchange_witness :
  fst (send_to_nrepl cutting_world "(str 233)" "127.0.0.1" 36915 30 initial_state)
  = Return (fault_text cutting_world (UnicodeDecodeError (String "195" EmptyString))).
Proof.
  apply (f_equal fst
           (undecodable_chunk_ends_exchange cutting_world "(str 233)" "127.0.0.1"
              36915%Z 30%Z initial_state "d11:new-session2:s1e" "s1"
              ("d5:value2:" ++ String "195" EmptyString)
              {| new_session := Some "s1"; value := None; status := None;
                 err := None; root_ex := None |}
              (UnicodeDecodeError (String "195" EmptyString))
              eq_refl eq_refl eq_refl eq_refl eq_refl eq_refl eq_refl
              ltac:(discriminate) eq_refl eq_refl ltac:(discriminate) eq_refl)).
Defined.

(** ** The summary of a trace *)

Section Summary.

Lemma join_lines_cons (l l' : string) (ls : list string) :
  Py.join_lines (l :: l' :: ls) = l ++ String Py.LF (Py.join_lines (l' :: ls)).
Proof. reflexivity. Qed.

(** Joining the lines of a text gives the text back. *)
Lemma join_split_lines (s : string) : Py.join_lines (Py.split_lines s) = s.
Proof.
  induction s as [|c r IH]; [reflexivity |]. cbn [Py.split_lines].
  destruct (Py.split_lines r) as [|l ls] eqn:E.
  - now apply split_lines_not_nil in E.
  - destruct (Ascii.eqb_spec c Py.LF) as [-> |].
    + rewrite join_lines_cons, IH. reflexivity.
    + destruct ls as [|l' ls].
      * simpl in IH. subst r. reflexivity.
      * rewrite join_lines_cons. rewrite join_lines_cons in IH. now subst r.
Qed.

Lemma filter_twice {A} (f : A -> bool) (l : list A) :
  filter f (filter f l) = filter f l.
Proof.
  induction l as [|x l IH]; simpl; [reflexivity |].
  destruct (f x) eqn:E; simpl; [rewrite E; now f_equal | exact IH].
Qed.

Lemma length_join_lines (l : string) (ls : list string) :
  String.length (Py.join_lines (l :: ls))
  = String.length l
    + match ls with [] => 0 | _ => 1 + String.length (Py.join_lines ls) end.
Proof.
  destruct ls as [|l' ls]; [change (Py.join_lines [l]) with l; lia |].
  rewrite join_lines_cons, length_append. reflexivity.
Qed.

(** Dropping lines never makes the joined text longer. *)
Lemma length_join_filter (f : string -> bool) (ls : list string) :
  String.length (Py.join_lines (filter f ls)) <= String.length (Py.join_lines ls).
Proof.
  induction ls as [|l ls IH]; [simpl; lia |].
  rewrite length_join_lines. cbn [filter].
  destruct (f l).
  - rewrite length_join_lines.
    destruct (filter f ls) as [|x xs] eqn:E; [lia |].
    destruct ls as [|l' ls]; [discriminate E | lia].
  - destruct ls as [|l' ls]; [simpl; lia | lia].
Qed.

(** The first line of the summary is the first line of the message. *)
Lemma summary_keeps_tag (result tag : string) :
  Py.has_LF tag = false ->
  Py.contains tag tag = true ->
  (forall l, Py.startswith l tag = true -> is_relevant l = true) ->
  Py.startswith result tag = true ->
  Py.startswith (Py.join_lines (filter is_relevant (Py.split_lines result))) tag = true.
Proof.
  intros Htag _ Hrel H.
  destruct (first_line_startswith tag result Htag H) as (l & ls & -> & Hl).
  cbn [filter]. rewrite (Hrel l Hl).
  unfold Py.startswith in *.
  destruct (Py.strip_prefix tag l) as [x |] eqn:E; [| discriminate].
  destruct (filter is_relevant ls) as [|l' ls'].
  - change (Py.join_lines [l]) with l. now rewrite E.
  - rewrite join_lines_cons. now rewrite (strip_prefix_grow _ _ _ _ E).
Qed.

Lemma error_line_relevant (l : string) :
  Py.startswith l "Error:" = true -> is_relevant l = true.
Proof.
  intros H. apply contains_of_prefix in H.
  unfold is_relevant, relevant_parts. cbn [existsb]. rewrite H.
  now rewrite orb_true_r.
Qed.

Lemma exception_line_relevant (l : string) :
  Py.startswith l "Exception:" = true -> is_relevant l = true.
Proof.
  intros H. apply contains_of_prefix in H.
  unfold is_relevant, relevant_parts. cbn [existsb]. rewrite H.
  now rewrite !orb_true_r.
Qed.

(** The tag of an error or exception message is the tag of what the
    interpreter returns for it. *)
Lemma pretty_print_keeps_tag (highlight : string -> outcome string) (result : string) :
  (Py.startswith result "Error:" = true ->
   Py.startswith (pretty_print_result highlight result) "Error:" = true)
  /\ (Py.startswith result "Exception:" = true ->
      Py.startswith (pretty_print_result highlight result) "Exception:" = true).
Proof.
  unfold pretty_print_result. split; intros H; rewrite H, ?orb_true_r; cbn [orb];
    (destruct (Py.contains "Traceback" result); [| exact H]).
  - apply summary_keeps_tag; auto. apply error_line_relevant.
  - apply summary_keeps_tag; auto. apply exception_line_relevant.
Qed.

End Summary.

(** X10.  Summarising twice is summarising once: for an error or
    exception message, the interpreter applied to its own output returns
    that output. *)
Theorem pretty_print_idempotent_on_errors :
  forall (highlight : string -> outcome string) (result : string),
    Py.startswith result "Error:" = true \/ Py.startswith result "Exception:" = true ->
    pretty_print_result highlight (pretty_print_result highlight result)
    = pretty_print_result highlight result.
Proof.
  intros highlight result Hstart.
  assert (Hor : Py.startswith result "Error:" || Py.startswith result "Exception:" = true).
  { now apply orb_true_iff. }
  assert (Hout : Py.startswith (pretty_print_result highlight result) "Error:"
                 || Py.startswith (pretty_print_result highlight result) "Exception:"
                 = true).
  { apply orb_true_iff.
    destruct (pretty_print_keeps_tag highlight result) as [He Hx].
    destruct Hstart as [H | H]; [left; auto | right; auto]. }
  destruct (Py.contains "Traceback" result) eqn:T0.
  - assert (E : pretty_print_result highlight result
                = Py.join_lines (filter is_relevant (Py.split_lines result))).
    { unfold pretty_print_result. now rewrite Hor, T0. }
    rewrite E in *. unfold pretty_print_result. rewrite Hout.
    destruct (Py.contains "Traceback"
                (Py.join_lines (filter is_relevant (Py.split_lines result))));
      [| reflexivity].
    rewrite split_join_lines.
    + now rewrite filter_twice.
    + now apply first_line_relevant.
    + apply filter_no_LF, split_lines_no_LF.
  - assert (E : pretty_print_result highlight result = result).
    { unfold pretty_print_result. now rewrite Hor, T0. }
    now rewrite !E.
Qed.

Lemma pretty_print_idempotent_on_errors_witness :
  let result := "Error: Traceback (most recent call last):" ++ Py.newline
                ++ "    (boom)" ++ Py.newline ++ "NameError: boom" in
  pretty_print_result plain_highlight (pretty_print_result plain_highlight result)
  = pretty_print_result plain_highlight result.
Proof.
  exact (pretty_print_idempotent_on_errors plain_highlight
           ("Error: Traceback (most recent call last):" ++ Py.newline
            ++ "    (boom)" ++ Py.newline ++ "NameError: boom")
           (or_introl eq_refl)).
Defined.

(** X11.  The summary is a compression: for an error or exception
    message, what the interpreter returns is never longer than the
    message. *)
Theorem pretty_print_never_longer :
  forall (highlight : string -> outcome string) (result : string),
    Py.startswith result "Error:" = true \/ Py.startswith result "Exception:" = true ->
    String.length (pretty_print_result highlight result) <= String.length result.
Proof.
  intros highlight result Hstart.
  assert (Hor : Py.startswith result "Error:" || Py.startswith result "Exception:" = true).
  { now apply orb_true_iff. }
  unfold pretty_print_result. rewrite Hor.
  destruct (Py.contains "Traceback" result); [| lia].
  rewrite <- (join_split_lines result) at 2.
  apply length_join_filter.
Qed.

Lemma pretty_print_never_longer_witness :
  String.length
    (pretty_print_result broken_highlight
       ("Exception: Traceback" ++ Py.newline ++ "  at frame 1"))
  <= String.length ("Exception: Traceback" ++ Py.newline ++ "  at frame 1").
Proof.
  exact (pretty_print_never_longer broken_highlight
           ("Exception: Traceback" ++ Py.newline ++ "  at frame 1")
           (or_intror eq_refl)).
Defined.

(** ** The tools *)

Section Tools.

Lemma fault_text_tag (w : world) (e : pyexn) :
  Py.startswith (fault_text w e) "Error:" = true.
Proof. destruct e; reflexivity. Qed.

Lemma eval_code_eq (w : world) (host : string) (port : Z)
    (highlight : string -> outcome string) (code : string) (s : state) :
  eval_code w host port highlight code s
  = (Return (pretty_print_result highlight
               (settle w (fst (send_to_nrepl_body w code host port 30 (unbind_sock s))))),
     snd (send_to_nrepl w code host port 30 s)).
Proof.
  unfold eval_code, bind. rewrite send_to_nrepl_eq.
  now destruct (send_to_nrepl_body w code host port 30 (unbind_sock s)).
Qed.

End Tools.

(** X12.  A tool never raises and adds no call to those of the transport.
    [send_to_nrepl] always returns a text, and [eval_code] and
    [execute_basilisp] return the formatting of that very text in the
    state that [send_to_nrepl] leaves.  A fault of the [try] block comes
    back as its error text, which starts with [Error:] also after the
    formatting; the tag of an error or exception result is kept by the
    formatting; any other result comes back highlighted, or as it is when
    the highlighting fails.  [get_docs] returns the formatted result of
    [send_to_nrepl] on the code [(doc symbol)], and [list_namespaces] that
    of [send_to_nrepl] on its namespace query. *)
Theorem tools_return_text :
  forall (w : world) (host : string) (port : Z)
         (highlight : string -> outcome string) (code : string) (s : state),
    (exists result s', send_to_nrepl w code host port 30 s = (Return result, s'))
    /\ (forall result s',
           send_to_nrepl w code host port 30 s = (Return result, s') ->
           eval_code w host port highlight code s
           = (Return (pretty_print_result highlight result), s')
           /\ execute_basilisp w host port highlight code s
              = (Return (pretty_print_result highlight result), s')
           /\ (forall e s1,
                  send_to_nrepl_body w code host port 30 (unbind_sock s) = (Raise e, s1) ->
                  result = fault_text w e
                  /\ Py.startswith (pretty_print_result highlight result) "Error:" = true)
           /\ (Py.startswith result "Error:" = true ->
               Py.startswith (pretty_print_result highlight result) "Error:" = true)
           /\ (Py.startswith result "Exception:" = true ->
               Py.startswith (pretty_print_result highlight result) "Exception:" = true)
           /\ (Py.startswith result "Error:" = false ->
               Py.startswith result "Exception:" = false ->
               (forall e, highlight result = Raise e ->
                          pretty_print_result highlight result = result)
               /\ (forall coloured, highlight result = Return coloured ->
                                    pretty_print_result highlight result = coloured)))
    /\ (forall symbol result s',
           send_to_nrepl w ("(doc " ++ symbol ++ ")") host port 30 s = (Return result, s') ->
           get_docs w host port highlight symbol s
           = (Return (pretty_print_result highlight result), s'))
    /\ (forall result s',
           send_to_nrepl w
             ("(str/join "
                ++ String "034" (String "010" (String "034" " (sort (map str (all-ns))))")))
             host port 30 s
           = (Return result, s') ->
           list_namespaces w host port highlight s
           = (Return (pretty_print_result highlight result), s')).
Proof.
  intros w host port highlight code s.
  assert (Heval : forall c result s',
             send_to_nrepl w c host port 30 s = (Return result, s') ->
             eval_code w host port highlight c s
             = (Return (pretty_print_result highlight result), s')).
  { intros c result s' H. unfold eval_code, bind. now rewrite H. }
  split; [| split; [| split]].
  - rewrite send_to_nrepl_eq.
    destruct (send_to_nrepl_body w code host port 30 (unbind_sock s)) as [o s1].
    eauto.
  - intros result s' H.
    destruct (pretty_print_keeps_tag highlight result) as [He Hx].
    split; [now apply Heval |]. split; [now apply Heval |].
    split; [| split; [exact He | split; [exact Hx |]]].
    + intros e s1 Hbody. rewrite send_to_nrepl_eq, Hbody in H.
      cbn [settle] in H. pose proof (f_equal fst H) as Hr. cbn [fst] in Hr.
      injection Hr as Hr.
      split; [now symmetry |]. apply He. rewrite <- Hr. apply fault_text_tag.
    + intros Hne Hnx.
      split; intros x Hh; unfold pretty_print_result; now rewrite Hne, Hnx, Hh.
  - intros symbol result s' H. unfold get_docs. now apply Heval.
  - intros result s' H. unfold list_namespaces. now apply Heval.
Qed.

Lemma tools_return_text_witness :
  fst (eval_code failing_eval_world "127.0.0.1" 36915 plain_highlight "(boom)"
                 initial_state)
  = Return "Error: Traceback: boom"
  /\ fst (get_docs healthy_world "127.0.0.1" 36915 broken_highlight "map"
                   initial_state)
     = Return "2"
  /\ fst (list_namespaces healthy_world "127.0.0.1" 36915 plain_highlight
                          initial_state)
     = Return "2".
Proof.
  split; [| split].
  - rewrite (proj1 (proj1 (proj2 (tools_return_text failing_eval_world "127.0.0.1"
                                    36915%Z plain_highlight "(boom)" initial_state))
                      ("Error: Traceback: boom" ++ Py.newline ++ "  in frame 3")
                      (snd (send_to_nrepl failing_eval_world "(boom)" "127.0.0.1"
                              36915%Z 30%Z initial_state))
                      eq_refl)).
    reflexivity.
  - rewrite (proj1 (proj2 (proj2 (tools_return_text healthy_world "127.0.0.1"
                                    36915%Z broken_highlight "(+ 1 1)" initial_state)))
               "map" "2"
               (snd (send_to_nrepl healthy_world "(doc map)" "127.0.0.1"
                       36915%Z 30%Z initial_state))
               eq_refl).
    reflexivity.
  - rewrite (proj2 (proj2 (proj2 (tools_return_text healthy_world "127.0.0.1"
                                    36915%Z plain_highlight "(+ 1 1)" initial_state)))
               "2"
               (snd (send_to_nrepl healthy_world
                       ("(str/join " ++ double_quote ++ Py.newline ++ double_quote
                          ++ " (sort (map str (all-ns))))")
                       "127.0.0.1" 36915%Z 30%Z initial_state))
               eq_refl).
    reflexivity.
Defined.

(** ** Requests *)

Section Requests.

Lemma append_inv_head (a x y : string) : a ++ x = a ++ y -> x = y.
Proof.
  induction a as [|c a IH]; simpl; intros H; [exact H |].
  inversion H. now apply IH.
Qed.

(** The encoding of a text can be read back from the front of what
    follows it. *)
Lemma text_entry_injective (a b x y : string) :
  Py.is_ascii a = true ->
  Py.is_ascii b = true ->
  Py.str_N (Py.len a) ++ ":" ++ a ++ x = Py.str_N (Py.len b) ++ ":" ++ b ++ y ->
  a = b /\ x = y.
Proof.
  intros Ha Hb H.
  change (":" ++ a ++ x) with (String ":" (a ++ x)) in H.
  change (":" ++ b ++ y) with (String ":" (b ++ y)) in H.
  pose proof (f_equal span_digits H) as Hspan.
  rewrite !span_digits_prefix in Hspan by apply str_N_digits.
  inversion Hspan as [[Hn Hrest]].
  apply (f_equal Py.decimal_value) in Hn. rewrite !int_of_str_N in Hn.
  rewrite (len_ascii _ Ha), (len_ascii _ Hb) in Hn.
  pose proof (f_equal (Py.take (Py.blen a)) Hrest) as Htake.
  rewrite take_blen in Htake. rewrite Hn, take_blen in Htake. subst b.
  split; [reflexivity |]. now apply append_inv_head in Hrest.
Qed.

(** Unsupported items of a list leave no byte. *)
Lemma bencode_encode_item_unsupported (item : pyval) :
  isinstance item TStr = false ->
  isinstance item TInt = false ->
  bencode_encode_item item = EmptyString.
Proof.
  intros Hs Hi. unfold bencode_encode_item. rewrite Hs, Hi.
  destruct item; try reflexivity; discriminate.
Qed.

End Requests.

(** X13.  The evaluate request is unambiguous: two requests with ASCII
    code and session are the same bytes only when they have the same code
    and the same session. *)
Theorem eval_request_injective :
  forall code1 session1 code2 session2 : string,
    Py.is_ascii code1 = true -> Py.is_ascii session1 = true ->
    Py.is_ascii code2 = true -> Py.is_ascii session2 = true ->
    make_eval_request code1 session1 = make_eval_request code2 session2 ->
    code1 = code2 /\ session1 = session2.
Proof.
  intros code1 session1 code2 session2 Hc1 Hs1 Hc2 Hs2 H.
  unfold make_eval_request, bencode_encode in H.
  cbn [bencode_encode_items] in H.
  rewrite !bencode_encode_value_str in H.
  change (key_marker "op") with "2:op" in H.
  change (key_marker "code") with "4:code" in H.
  change (key_marker "session") with "7:session" in H.
  change (Py.str_N (Py.len "eval") ++ ":" ++ "eval") with "4:eval" in H.
  rewrite !append_assoc in H.
  do 4 apply append_inv_head in H.
  apply text_entry_injective in H; auto. destruct H as [-> H].
  split; [reflexivity |].
  apply append_inv_head in H.
  apply text_entry_injective in H; auto. now destruct H.
Qed.

Lemma eval_request_injective_witness :
  "(+ 1 1)" = "(+ 1 1)" /\ "s1" = "s1".
Proof.
  exact (eval_request_injective "(+ 1 1)" "s1" "(+ 1 1)" "s1"
           eq_refl eq_refl eq_refl eq_refl eq_refl).
Defined.

(** X14.  An item of a list that is not a string or an integer, a nested
    list for one, is dropped without a trace: the list encodes as if the
    item were not in it. *)
Theorem unsupported_list_item_is_dropped :
  forall (before after : list pyval) (item : pyval) (k : string),
    isinstance item TStr = false ->
    isinstance item TInt = false ->
    bencode_encode_list (before ++ item :: after) = bencode_encode_list (before ++ after)
    /\ bencode_encode [(k, VList (before ++ item :: after))]
       = bencode_encode [(k, VList (before ++ after))].
Proof.
  intros before after item k Hs Hi.
  assert (E : bencode_encode_list (before ++ item :: after)
              = bencode_encode_list (before ++ after)).
  { rewrite !bencode_encode_list_app. cbn [bencode_encode_list].
    now rewrite (bencode_encode_item_unsupported _ Hs Hi). }
  split; [exact E |].
  unfold bencode_encode. cbn [bencode_encode_items].
  unfold bencode_encode_value. cbn [isinstance type_of issubclass list_items].
  now rewrite E.
Qed.

Lemma unsupported_list_item_is_dropped_witness :
  bencode_encode [("l", VList ([VStr "a"] ++ VList [VInt 1] :: [VInt 2]))]
  = bencode_encode [("l", VList ([VStr "a"] ++ [VInt 2]))].
Proof.
  exact (proj2 (unsupported_list_item_is_dropped [VStr "a"] [VInt 2] (VList [VInt 1])
                  "l" eq_refl eq_refl)).
Defined.

(** X15.  The exchange that goes well: the server gives a session, takes
    the evaluate request and answers in one chunk that decodes with the
    completion marker.  The operation makes the eight calls of the
    protocol, one read for the reply, and returns the resolution of the
    decoded reply. *)
Theorem complete_reply_in_one_chunk :
  forall (w : world) (code host : string) (port timeout : Z) (s : state)
         (session_resp session_id chunk : string) (session_data parsed : fields),
    socket_raises w = None ->
    settimeout_raises w = None ->
    connect_raises w = None ->
    sendall_raises w (count_sendall (trace s)) make_session_request = None ->
    recv_answer w (count_recv (trace s)) = Return session_resp ->
    parse_bencode_response session_resp = Return session_data ->
    new_session session_data = Some session_id ->
    session_id <> EmptyString ->
    sendall_raises w (S (count_sendall (trace s))) (make_eval_request code session_id)
    = None ->
    recv_answer w (S (count_recv (trace s))) = Return chunk ->
    chunk <> EmptyString ->
    parse_bencode_response chunk = Return parsed ->
    status_done parsed = true ->
    send_to_nrepl w code host port timeout s
    = (Return (resolve parsed),
       {| trace := (trace s ++ [EvSocket; EvSetTimeout timeout; EvConnect host port;
                                EvSendAll make_session_request; EvRecv 4096;
                                EvSendAll (make_eval_request code session_id);
                                EvRecv 4096; EvClose])%list;
          sock := true |}).
Proof.
  intros w code host port timeout s resp sid chunk data parsed
         H1 H2 H3 H4 H5 H6 H7 H8 H9 H10 H11 H12 H13.
  rewrite send_to_nrepl_eq.
  rewrite (body_handshake w code host port timeout (unbind_sock s) (Return resp)
             H1 H2 H3 H4 H5).
  unfold bind at 1. unfold bind at 1. unfold lift. rewrite H6, H7.
  destruct (String.eqb_spec sid EmptyString) as [| _]; [contradiction |].
  unfold bind at 1. unfold sock_sendall. rewrite call_eq.
  cbn [trace unbind_sock]. rewrite count_sendall_app. cbn [count_sendall].
  rewrite Nat.add_1_r, H9.
  unfold bind at 1. rewrite read_loop_eq.
  destruct (lt_dec 0 100) as [_ | Hn]; [| exfalso; apply Hn; repeat constructor].
  unfold sock_recv, log. cbn [trace]. rewrite !count_recv_app. cbn [count_recv].
  rewrite Nat.add_0_r, Nat.add_1_r, H10.
  destruct (String.eqb_spec chunk EmptyString) as [| _]; [contradiction |].
  cbn [append]. rewrite H12, H13.
  unfold bind, ret. rewrite H12. cbn [sock trace settle].
  now rewrite <- !app_assoc.
Qed.

Lemma complete_reply_in_one_chunk_witness :
  fst (send_to_nrepl failing_eval_world "(boom)" "127.0.0.1" 36915 30 initial_state)
  = Return ("Error: Traceback: boom" ++ Py.newline ++ "  in frame 3").
Proof.
  apply (f_equal fst
           (complete_reply_in_one_chunk failing_eval_world "(boom)" "127.0.0.1"
              36915%Z 30%Z initial_state "d11:new-session2:s1e" "s1"
              ("d3:err28:Traceback: boom" ++ Py.newline
               ++ "  in frame 36:statusl4:doneee")
              {| new_session := Some "s1"; value := None; status := None;
                 err := None; root_ex := None |}
              {| new_session := None; value := None; status := Some ["done"];
                 err := Some ("Traceback: boom" ++ Py.newline ++ "  in frame 3");
                 root_ex := None |}
              eq_refl eq_refl eq_refl eq_refl eq_refl eq_refl eq_refl
              ltac:(discriminate) eq_refl eq_refl ltac:(discriminate) eq_refl eq_refl)).
Defined.
